(** * Maths: intersection and collision testers

    A shallow embedding of the collision engine of the Maths library
    (Sources/Raycast.cpp, Segment.cpp, AABB.cpp, Sphere.cpp, Range.cpp and
    the inline files they use), with the properties of its specification
    stated over it.

    The C++ code computes on [float].  The embedding is written once over an
    interface [Scalar] that lists the scalar operations the code performs,
    and is run on two instances:
    - [Binary32.scalar]: IEEE-754 single precision, every operation rounded
      once to nearest even (the [float] of the code, without contraction of
      multiplications and additions), from the Standard Library's
      [SpecFloat]; a division by zero yields an infinity or a NaN, and a
      comparison with a NaN is false;
    - [Exact.scalar_with]: exact rational arithmetic, the idealisation in
      which the specification is worded; a division by zero yields 0 there,
      and the statements made on this instance do not depend on it.

    An out-parameter [Intersection& p_hit] is passed in and returned: a
    tester is a function to [bool * Intersection.t]. *)

From Stdlib Require Import ZArith QArith Qabs Bool List Lia Lqa.
From Stdlib Require Import Floats.SpecFloat.
Import ListNotations.

Set Implicit Arguments.

(** ** The scalar interface *)

(** What the code needs from [float]: the literals (all of them are of the
    form [m * 2^e]), the arithmetic operators, [std::abs], [std::sqrt] and
    the comparisons, which yield C++ [bool]s.  The one law is that the
    literal [2.0f] does not compare equal to [0.0f]: the divisions of vectors
    in the modelled code all divide by this literal (see [Vector3.div]). *)
Class Scalar (F : Type) : Type := {
  dyadic : Z -> Z -> F;
  fadd : F -> F -> F;
  fsub : F -> F -> F;
  fmul : F -> F -> F;
  fdiv : F -> F -> F;
  fneg : F -> F;
  fabs : F -> F;
  fsqrt : F -> F;
  feqb : F -> F -> bool;
  fltb : F -> F -> bool;
  fleb : F -> F -> bool;
  two_not_zero : feqb (dyadic 2 0) (dyadic 0 0) = false
}.

Declare Scope scalar_scope.
Delimit Scope scalar_scope with F.
Infix "+" := fadd : scalar_scope.
Infix "-" := fsub : scalar_scope.
Infix "*" := fmul : scalar_scope.
Infix "/" := fdiv : scalar_scope.
Notation "- x" := (fneg x) : scalar_scope.
Infix "==?" := feqb (at level 70, no associativity) : scalar_scope.
Infix "<?" := fltb : scalar_scope.
Infix "<=?" := fleb : scalar_scope.
Notation "x >? y" := (fltb y x) : scalar_scope.
Notation "x >=? y" := (fleb y x) : scalar_scope.
Notation "x !=? y" := (negb (feqb x y)) (at level 70, no associativity) : scalar_scope.

Section Literals.
Context {F : Type} {SF : Scalar F}.

(** An integer literal [k.0f]. *)
Definition lit (k : Z) : F := dyadic k 0.
(** [k / 2] as a literal, e.g. [0.5f = halves 1]. *)
Definition halves (k : Z) : F := dyadic k (-1).

Definition zero : F := lit 0.
Definition one : F := lit 1.
Definition two : F := lit 2.
Definition four : F := lit 4.

(** [__FLT_MAX__ = (2^24 - 1) * 2^104], the largest finite [float]. *)
Definition FLT_MAX : F := dyadic (2 ^ 24 - 1) 104.
(** [__FLT_MIN__ = 2^-126], the smallest positive normal [float]. *)
Definition FLT_MIN : F := dyadic 1 (-126).
(** [__DBL_EPSILON__ * __DBL_EPSILON__ = 2^-104].  The code compares a
    [float] converted to [double] against this [double]; both sides are
    values of [float], hence the comparison is the one of [F]. *)
Definition DBL_EPSILON_SQR : F := dyadic 1 (-104).

(** [Min] and [Max] of Utilities.hpp. *)
Definition Min (p_num p_min : F) : F := if (p_num <? p_min)%F then p_num else p_min.
Definition Max (p_num p_max : F) : F := if (p_num >? p_max)%F then p_num else p_max.




Definition Clamp (p_num p_min p_max : F) : F :=
  if (p_num <? p_min)%F then p_min else if (p_num >? p_max)%F then p_max else p_num.

Definition Clamp01 (p_num : F) : F :=
  if (p_num <? zero)%F then zero else if (p_num >? one)%F then one else p_num.


Definition LerpUnclamped (p_a p_b p_t : F) : F := ((one - p_t) * p_a + p_t * p_b)%F.
End Literals.

(** ** The two scalar types *)

Module Binary32.
Definition prec : Z := 24.
Definition emax : Z := 128.
Definition float : Type := spec_float.

Definition of_dyadic (m e : Z) : float := binary_normalize prec emax m e false.

#[global] Instance scalar : Scalar float := {|
  dyadic := of_dyadic;
  fadd := SFadd prec emax;
  fsub := SFsub prec emax;
  fmul := SFmul prec emax;
  fdiv := SFdiv prec emax;
  fneg := SFopp;
  fabs := SFabs;
  fsqrt := SFsqrt prec emax;
  feqb := SFeqb;
  fltb := SFltb;
  fleb := SFleb;
  two_not_zero := eq_refl
|}.
End Binary32.

Module Exact.
Definition of_dyadic (m e : Z) : Q := inject_Z m * (2 # 1) ^ e.

Definition Qltb (x y : Q) : bool := negb (Qle_bool y x).

(** The square root of a rational [n / d], taken as [floor (sqrt (n * d)) / d]:
    exact on the squares of rationals, rounded down to a multiple of
    [1 / d] elsewhere. *)
Definition Qsqrt (x : Q) : Q := Z.sqrt (Qnum x * Zpos (Qden x)) # Qden x.

(** Exact arithmetic with a square root [sq] of the user's choice. *)
Definition scalar_with (sq : Q -> Q) : Scalar Q := {|
  dyadic := of_dyadic;
  fadd := Qplus;
  fsub := Qminus;
  fmul := Qmult;
  fdiv := Qdiv;
  fneg := Qopp;
  fabs := Qabs;
  fsqrt := sq;
  feqb := Qeq_bool;
  fltb := Qltb;
  fleb := Qle_bool;
  two_not_zero := eq_refl
|}.

Definition scalar : Scalar Q := scalar_with Qsqrt.
End Exact.

(** What the proofs about the comparisons of the code use of the order:
    when [x <= y] holds, [y < x] does not.  It holds of [float], NaN
    included, and of the rationals. *)
Class OrderedScalar (F : Type) {SF : Scalar F} : Prop := {
  fleb_not_fltb : forall x y : F, (x <=? y)%F = true -> (y <? x)%F = false
}.
Arguments OrderedScalar F {SF}.

(** ** Vector3 (Inlines/Vector3.inl) *)

(** The indices 0, 1 and 2 of the loops [for (int i = 0; i < 3; ++i)]. *)
Inductive axis : Type := X | Y | Z_.

(** The truth value of an [int] used as a condition. *)
Definition nonzero (n : Z) : bool := negb (Z.eqb n 0).

Module Vector3.
Section Vector3.
Context {F : Type} {SF : Scalar F}.
Local Open Scope scalar_scope.

Record t : Type := mk { m_x : F; m_y : F; m_z : F }.

Definition Forward : t := mk zero zero one.
Definition Up : t := mk zero one zero.
Definition Right : t := mk one zero zero.
Definition Zero : t := mk zero zero zero.

(** [Vector3(p_a, p_b)], the vector from [p_a] to [p_b]. *)
Definition between (a b : t) : t :=
  mk (m_x b - m_x a) (m_y b - m_y a) (m_z b - m_z a).

(** [operator[]] at the indices 0, 1 and 2 the loops of the code range
    over (any other index throws [std::out_of_range]). *)
Definition get (v : t) (i : axis) : F :=
  match i with X => m_x v | Y => m_y v | Z_ => m_z v end.

Definition add (a b : t) : t := mk (m_x a + m_x b) (m_y a + m_y b) (m_z a + m_z b).
Definition add_k (a : t) (k : F) : t := mk (m_x a + k) (m_y a + k) (m_z a + k).
Definition sub (a b : t) : t := mk (m_x a - m_x b) (m_y a - m_y b) (m_z a - m_z b).
Definition neg (a : t) : t := mk (- m_x a) (- m_y a) (- m_z a).
Definition scale (a : t) (k : F) : t := mk (m_x a * k) (m_y a * k) (m_z a * k).

(** [operator/ (const Vector3&, const float)] throws [std::domain_error]
    when [p_k == 0.0f]; [div] is the branch that returns.  Every call in
    the modelled code divides by the literal [2.0f], for which the guard
    [div_throws] is false ([div_by_two_returns]). *)
Definition div_throws (k : F) : bool := k ==? zero.
Definition div (a : t) (k : F) : t := mk (m_x a / k) (m_y a / k) (m_z a / k).

Definition Dot (a b : t) : F := m_x a * m_x b + m_y a * m_y b + m_z a * m_z b.

Definition DistanceSqr (a b : t) : F :=
  let x := m_x b - m_x a in
  let y := m_y b - m_y a in
  let z := m_z b - m_z a in
  x * x + y * y + z * z.

Definition GetSqrMagnitude (v : t) : F := m_x v * m_x v + m_y v * m_y v + m_z v * m_z v.
Definition GetMagnitude (v : t) : F := fsqrt (m_x v * m_x v + m_y v * m_y v + m_z v * m_z v).

Definition GetNormalize (v : t) : t :=
  let length := fsqrt (m_x v * m_x v + m_y v * m_y v + m_z v * m_z v) in
  if length ==? zero then Zero
  else mk (m_x v / length) (m_y v / length) (m_z v / length).

(** [Normalize] is called on temporaries only; the value it returns is
    the normalized vector. *)
Definition Normalize (v : t) : t :=
  let length := fsqrt (m_x v * m_x v + m_y v * m_y v + m_z v * m_z v) in
  if length !=? zero then mk (m_x v / length) (m_y v / length) (m_z v / length)
  else v.

(** [operator==]: equality up to [__DBL_EPSILON__], on squares. *)
Definition eqb (a b : t) : bool :=
  let x := (m_x a - m_x b) * (m_x a - m_x b) in
  let y := (m_y a - m_y b) * (m_y a - m_y b) in
  let z := (m_z a - m_z b) * (m_z a - m_z b) in
  let epsilon := DBL_EPSILON_SQR in
  negb ((x >? epsilon) || (y >? epsilon) || (z >? epsilon)).

(** [Vector3::Cross] and [operator^]. *)
Definition Cross (a b : t) : t :=
  mk (m_y a * m_z b - m_z a * m_y b)
     (m_z a * m_x b - m_x a * m_z b)
     (m_x a * m_y b - m_y a * m_x b).


(** [Vector3::Lerp] (named [LerpV] here, [Lerp] being the helper of
    Utilities.hpp): [(1.0f - value) * p_a + value * p_b], where the product
    of a [float] by a vector multiplies each member by the [float]. *)
Definition LerpV (a b : t) (p_t : F) : t :=
  let value := if p_t <=? zero then zero else if p_t >=? one then one else p_t in
  add (scale a (one - value)) (scale b value).




End Vector3.
Arguments t F : clear implicits.
End Vector3.

Declare Scope vec_scope.
Delimit Scope vec_scope with V.
Infix "+" := Vector3.add : vec_scope.
Infix "-" := Vector3.sub : vec_scope.
Notation "- a" := (Vector3.neg a) : vec_scope.
Infix "*" := Vector3.scale : vec_scope.
Infix "/" := Vector3.div : vec_scope.

(** ** Intersection (Inlines/Intersection.inl, Sources/Intersection.cpp) *)

Module Intersection.
Section Intersection.
Context {F : Type} {SF : Scalar F}.

Record t : Type := mk { m_impact : Vector3.t F; m_normal : Vector3.t F }.

(** The default constructor. *)
Definition default : t := mk Vector3.Zero Vector3.Zero.

(** [Reset] sets both members to [(0, 0, 0)]. *)
Definition Reset (h : t) : t := mk (Vector3.mk zero zero zero) (Vector3.mk zero zero zero).

Definition set_impact (h : t) (p : Vector3.t F) : t := mk p (m_normal h).
End Intersection.
Arguments t F : clear implicits.
End Intersection.

(** ** Plane (Inlines/Plane.inl, Sources/Plane.cpp) *)

Module Plane.
Section Plane.
Context {F : Type} {SF : Scalar F}.
Local Open Scope scalar_scope.
Import Vector3.

Record t : Type := mk { m_normal : Vector3.t F; m_distance : F }.

(** [Plane(p_normal, p_point)]. *)
Definition of_point (p_normal p_point : Vector3.t F) : t :=
  mk p_normal (- Dot p_point p_normal).

Definition GetSide (p : t) (p_pt : Vector3.t F) : F :=
  m_x (m_normal p) * m_x p_pt + m_y (m_normal p) * m_y p_pt
  + m_z (m_normal p) * m_z p_pt + m_distance p.


Definition SameSide (p : t) (p_pt1 p_pt2 : Vector3.t F) : bool :=
  let side_pt1 := GetSide p p_pt1 in
  let side_pt2 := GetSide p p_pt2 in
  ((side_pt1 >? zero) && (side_pt2 >? zero))
  || ((side_pt1 <? zero) && (side_pt2 <? zero))
  || ((side_pt1 ==? zero) && (side_pt2 ==? zero)).


End Plane.
Arguments t F : clear implicits.
End Plane.

(** ** Line (Inlines/Line.inl) *)

Module Line.
Section Line.
Context {F : Type} {SF : Scalar F}.

Record t : Type := mk { m_origin : Vector3.t F; m_direction : Vector3.t F }.

Definition ClosestPointOnLine (l : t) (p_pt : Vector3.t F) : Vector3.t F :=
  (m_origin l
   + m_direction l * Vector3.Dot (Vector3.between (m_origin l) p_pt) (m_direction l))%V.

Definition DistancePointSqr (l : t) (p_pt : Vector3.t F) : F :=
  (Vector3.GetSqrMagnitude (Vector3.Cross (Vector3.between (m_origin l) p_pt) (m_direction l))
   / Vector3.GetSqrMagnitude (m_direction l))%F.
End Line.
Arguments t F : clear implicits.
End Line.

(** ** AABB (Includes/AABB.hpp, Inlines/AABB.inl, Sources/AABB.cpp) *)

Module AABB.
Section AABB.
Context {F : Type} {SF : Scalar F}.
Local Open Scope scalar_scope.
Import Vector3.

Record t : Type := mk {
  m_extents : Vector3.t F;
  m_max : Vector3.t F;
  m_min : Vector3.t F;
  m_size : Vector3.t F;
  m_origin : Vector3.t F
}.

(** [AABB(p_origin, p_size)]; the members are initialised in the order
    of their declaration, [m_extents] first. *)
Definition make (p_origin p_size : Vector3.t F) : t :=
  let extents := (p_size / two)%V in
  mk extents (p_origin + extents)%V (p_origin - extents)%V p_size p_origin.

Definition GetExtents (b : t) : Vector3.t F := m_extents b.
Definition GetMax (b : t) : Vector3.t F := m_max b.
Definition GetMin (b : t) : Vector3.t F := m_min b.

Definition ClosestPoint (b : t) (p_point : Vector3.t F) : Vector3.t F :=
  let clamp i :=
    let value := get p_point i in
    if value <? get (m_min b) i then get (m_min b) i
    else if value >? get (m_max b) i then get (m_max b) i
    else value in
  Vector3.mk (clamp X) (clamp Y) (clamp Z_).

Definition Contains (b : t) (p_point : Vector3.t F) : bool :=
  (m_x (m_min b) <=? m_x p_point) && (m_x p_point <=? m_x (m_max b)) &&
  (m_y (m_min b) <=? m_y p_point) && (m_y p_point <=? m_y (m_max b)) &&
  (m_z (m_min b) <=? m_z p_point) && (m_z p_point <=? m_z (m_max b)).

(** One turn of the loop of [Distance] and [DistanceSqr]. *)
Definition DistanceSqr_step (b : t) (p_point : Vector3.t F) (sqrDistance : F) (i : axis) : F :=
  let value := get p_point i in
  if value <? get (m_min b) i
  then sqrDistance + (get (m_min b) i - value) * (get (m_min b) i - value)
  else if value >? get (m_max b) i
  then sqrDistance + (value - get (m_max b) i) * (value - get (m_max b) i)
  else sqrDistance.

Definition DistanceSqr (b : t) (p_point : Vector3.t F) : F :=
  fold_left (DistanceSqr_step b p_point) [X; Y; Z_] zero.

Definition Distance (b : t) (p_point : Vector3.t F) : F :=
  fsqrt (fold_left (DistanceSqr_step b p_point) [X; Y; Z_] zero).

Definition GetVertices (b : t) : list (Vector3.t F) :=
  let ex := m_x (m_extents b) in
  let ey := m_y (m_extents b) in
  let ez := m_z (m_extents b) in
  let vertex x y z := (m_origin b + Vector3.mk x y z)%V in
  [ vertex (- ex) ey ez; vertex ex ey ez; vertex (- ex) (- ey) ez; vertex ex (- ey) ez;
    vertex ex ey (- ez); vertex (- ex) ey (- ez); vertex ex (- ey) (- ez);
    vertex (- ex) (- ey) (- ez) ].

(** [p_n] is an [int]; the callers pass values in [0, 7].  An [int]
    used as a condition is true when it is not 0. *)
Definition Corner (b : t) (p_n : Z) : Vector3.t F :=
  Vector3.mk
    (if nonzero (Z.land p_n 1) then m_x (m_max b) else m_x (m_min b))
    (if nonzero (Z.land p_n 1) then m_y (m_max b) else m_y (m_min b))
    (if nonzero (Z.land p_n 1) then m_z (m_max b) else m_z (m_min b)).

(** [Expand(const float p_amount)]. *)
Definition Expand (b : t) (p_amount : F) : t :=
  let size := add_k (m_size b) (p_amount * two) in
  let extents := add_k (m_extents b) p_amount in
  mk extents (m_origin b + extents)%V (m_origin b - extents)%V size (m_origin b).

Definition IsColliding (b p_other : t) : bool :=
  let otherExtents := GetExtents p_other in
  if (m_x (m_origin b) - m_x (m_origin p_other) >? m_x (m_extents b) + m_x otherExtents) &&
     (m_y (m_origin b) - m_y (m_origin p_other) >? m_y (m_extents b) + m_y otherExtents) &&
     (m_z (m_origin b) - m_z (m_origin p_other) >? m_z (m_extents b) + m_z otherExtents)
  then false
  else true.

(** One turn of the loop of [Normal]: the state is [(min, normal)]. *)
Definition Normal_step (b : t) (localPoint : Vector3.t F) (st : F * Vector3.t F) (i : axis)
  : F * Vector3.t F :=
  let distance := fabs (get (m_extents b) i - fabs (get localPoint i)) in
  if distance <? fst st then
    (distance,
     match i with
     | X => (Right * get localPoint i)%V
     | Y => (Up * get localPoint i)%V
     | Z_ => (Forward * get localPoint i)%V
     end)
  else st.

Definition Normal (b : t) (p_point : Vector3.t F) : Vector3.t F :=
  let localPoint := (p_point - m_origin b)%V in
  let st := fold_left (Normal_step b localPoint) [X; Y; Z_] (FLT_MAX, Vector3.mk zero zero zero) in
  GetNormalize (snd st).

(** The slab traversal that [Segment::IsIntersecting (const AABB&, ...)]
    and [Raycast::IsIntersecting (const AABB&, ...)] both spell out, on
    the probe from [p_from] to [p_to]: one turn of the loop on the state
    [(tmin, tmax)]; [None] is the [return false] inside the loop. *)
Definition slab_step (b : t) (p_from p_to : Vector3.t F) (st : F * F) (i : axis)
  : option (F * F) :=
  let t1 := (get (GetMin b) i - get p_from i) / (get p_to i - get p_from i) in
  let t2 := (get (GetMax b) i - get p_from i) / (get p_to i - get p_from i) in
  if get p_to i - get p_from i !=? zero then
    let '(t1, t2) := if t2 <? t1 then (t2, t1) else (t1, t2) in
    if (t2 <? fst st) || (t1 >? snd st) then None
    else
      let tmin := Max (fst st) t1 in
      let tmax := Min (snd st) t2 in
      if tmin >? tmax then None else Some (tmin, tmax)
  else Some st.

Fixpoint slab_loop (b : t) (p_from p_to : Vector3.t F) (axes : list axis) (st : F * F)
  : option (F * F) :=
  match axes with
  | [] => Some st
  | i :: rest =>
      match slab_step b p_from p_to st i with
      | None => None
      | Some st' => slab_loop b p_from p_to rest st'
      end
  end.

(** The loop from [tmin = 0.0f], [tmax = 1.0f] over the three axes. *)
Definition slab (b : t) (p_from p_to : Vector3.t F) : option (F * F) :=
  slab_loop b p_from p_to [X; Y; Z_] (zero, one).
End AABB.
Arguments t F : clear implicits.
End AABB.

(** ** Sphere, InfiniteCylinder, Cylinder, Capsule: the data *)

Module Sphere.
Record t (F : Type) : Type := mk { m_origin : Vector3.t F; m_radius : F }.
End Sphere.

Module InfiniteCylinder.
Record t (F : Type) : Type :=
  mk { m_origin : Vector3.t F; m_direction : Vector3.t F; m_radius : F }.
End InfiniteCylinder.

Module Cylinder.
Record t (F : Type) : Type :=
  mk { m_origin : Vector3.t F; m_direction : Vector3.t F; m_height : F; m_radius : F }.
End Cylinder.

Module Capsule.
Section Capsule.
Context {F : Type} {SF : Scalar F}.

Record t : Type :=
  mk { m_origin : Vector3.t F; m_direction : Vector3.t F; m_height : F; m_radius : F }.

(** [Capsule(p_origin, p_target, p_radius)], the constructor with two points. *)
Definition of_points (p_origin p_target : Vector3.t F) (p_radius : F) : t :=
  mk p_origin
     (Vector3.Normalize (p_target - p_origin)%V)
     (Vector3.GetMagnitude (p_target - p_origin)%V)
     p_radius.
End Capsule.
Arguments t F : clear implicits.
End Capsule.

(** ** Testers tried in turn

    [if (A) return true; if (B) return true; if (C) return true; return false;]
    on the same [Intersection]: the first tester that reports a hit returns,
    and each one receives the [Intersection] as the previous ones left it. *)
Definition first_hit {F : Type}
  (tests : list (Intersection.t F -> bool * Intersection.t F))
  (p_hit : Intersection.t F) : bool * Intersection.t F :=
  fold_left
    (fun (acc : bool * Intersection.t F) test => if fst acc then acc else test (snd acc))
    tests (false, p_hit).

(** ** Segment (Sources/Segment.cpp) *)

Module Segment.
Section Segment.
Context {F : Type} {SF : Scalar F}.
Local Open Scope scalar_scope.
Import Vector3.

Record t : Type := mk { m_ptA : Vector3.t F; m_ptB : Vector3.t F }.

Definition GetAB (s : t) : Vector3.t F := (m_ptB s - m_ptA s)%V.

Definition GetBA (s : t) : Vector3.t F := (m_ptA s - m_ptB s)%V.

Definition GetLine (s : t) : Line.t F := Line.mk (m_ptA s) (Normalize (m_ptB s - m_ptA s)%V).

Definition DistancePointSqr (s : t) (p_point : Vector3.t F) : F :=
  let segmentVector := (m_ptB s - m_ptA s)%V in
  let t := Clamp01 (Dot (between (m_ptA s) p_point) segmentVector
                    / GetSqrMagnitude segmentVector) in
  let projection := (m_ptA s + segmentVector * t)%V in
  GetSqrMagnitude (between projection p_point).

Definition LengthSqr (s : t) : F :=
  let x := m_x (m_ptB s) - m_x (m_ptA s) in
  let y := m_y (m_ptB s) - m_y (m_ptA s) in
  let z := m_z (m_ptB s) - m_z (m_ptA s) in
  x * x + y * y + z * z.

Definition IsIntersecting_Plane (s : t) (p_plane : Plane.t F) (p_hit : Intersection.t F)
  : bool * Intersection.t F :=
  let segmentVector := (m_ptB s - m_ptA s)%V in
  let dot := Dot segmentVector (Plane.m_normal p_plane) in
  if dot ==? zero then (false, p_hit)
  else
    let t := Plane.m_distance p_plane - Dot (m_ptA s) (Plane.m_normal p_plane) / dot in
    if (t >=? zero) && (t <=? one) then
      (true,
       Intersection.mk (m_ptA s + segmentVector * t)%V
         (if dot >? zero then (- Plane.m_normal p_plane)%V else Plane.m_normal p_plane))
    else (false, p_hit).

Definition IsIntersecting_AABB (s : t) (p_aabb : AABB.t F) (p_hit : Intersection.t F)
  : bool * Intersection.t F :=
  match AABB.slab p_aabb (m_ptA s) (m_ptB s) with
  | None => (false, p_hit)
  | Some (tmin, tmax) =>
      if tmin ==? zero then (false, p_hit)
      else
        let impact := (m_ptA s + GetAB s * tmin)%V in
        (true, Intersection.mk impact (AABB.Normal p_aabb impact))
  end.

Definition IsIntersecting_Sphere (s : t) (p_sphere : Sphere.t F) (p_hit : Intersection.t F)
  : bool * Intersection.t F :=
  let segmentVector := (m_ptB s - m_ptA s)%V in
  let sphereVector := (Sphere.m_origin p_sphere - m_ptA s)%V in
  let a := GetSqrMagnitude segmentVector in
  let b := two * Dot sphereVector segmentVector in
  let c := GetSqrMagnitude sphereVector - Sphere.m_radius p_sphere * Sphere.m_radius p_sphere in
  let delta := b * b - four * a * c in
  if delta <? zero then (false, p_hit)
  else
    let t := (- b - fsqrt delta) / (two * a) in
    if (t >=? zero) && (t <=? one) then
      let impact := (m_ptA s + segmentVector * t)%V in
      (true, Intersection.mk impact (GetNormalize (impact - Sphere.m_origin p_sphere)%V))
    else (false, p_hit).

Definition IsIntersecting_InfiniteCylinder (s : t) (p_cylinder : InfiniteCylinder.t F)
  (p_hit : Intersection.t F) : bool * Intersection.t F :=
  let segmentVector := (m_ptB s - m_ptA s)%V in
  let cylinderToSegment := (m_ptA s - InfiniteCylinder.m_origin p_cylinder)%V in
  let direction := InfiniteCylinder.m_direction p_cylinder in
  let dot1 := Dot segmentVector direction in
  let dot2 := Dot cylinderToSegment direction in
  let a := GetSqrMagnitude segmentVector - dot1 * dot1 in
  let b := two * Dot cylinderToSegment segmentVector - two * dot1 * dot2 in
  let c := GetSqrMagnitude cylinderToSegment - dot2 * dot2
           - InfiniteCylinder.m_radius p_cylinder * InfiniteCylinder.m_radius p_cylinder in
  let delta := b * b - four * a * c in
  if delta <? zero then (false, p_hit)
  else
    let t := (- b - fsqrt delta) / (two * a) in
    if (t >=? zero) && (t <=? one) then
      let impact := (m_ptA s + segmentVector * t)%V in
      let axisLine := Line.mk (InfiniteCylinder.m_origin p_cylinder)
                              (InfiniteCylinder.m_direction p_cylinder) in
      (true,
       Intersection.mk impact (GetNormalize (impact - Line.ClosestPointOnLine axisLine impact)%V))
    else (false, p_hit).

Definition IsIntersecting_Cylinder (s : t) (p_cylinder : Cylinder.t F)
  (p_hit : Intersection.t F) : bool * Intersection.t F :=
  let pointP := (Cylinder.m_origin p_cylinder
                 + Cylinder.m_direction p_cylinder * Cylinder.m_height p_cylinder / two)%V in
  let pointQ := (Cylinder.m_origin p_cylinder
                 - Cylinder.m_direction p_cylinder * Cylinder.m_height p_cylinder / two)%V in
  let planeP := Plane.of_point (Cylinder.m_direction p_cylinder) pointP in
  let planeQ := Plane.of_point (- Cylinder.m_direction p_cylinder)%V pointQ in
  let radiusSqr := Cylinder.m_radius p_cylinder * Cylinder.m_radius p_cylinder in
  let lateral (hit : Intersection.t F) :=
    IsIntersecting_InfiniteCylinder s
      (InfiniteCylinder.mk (Cylinder.m_origin p_cylinder)
         (Cylinder.m_direction p_cylinder) (Cylinder.m_radius p_cylinder)) hit in
  let fromQ (hit : Intersection.t F) :=
    if Plane.GetSide planeQ (m_ptA s) >=? zero then
      match IsIntersecting_Plane s planeQ hit with
      | (true, hit') =>
          if DistanceSqr (Intersection.m_impact hit') pointQ <=? radiusSqr
          then (true, hit')
          else lateral hit'
      | (false, hit') => (false, hit')
      end
    else lateral hit in
  if (Plane.GetSide planeP (m_ptB s) >=? zero) || (Plane.GetSide planeQ (m_ptB s) >=? zero)
  then (false, p_hit)
  else if Plane.GetSide planeP (m_ptA s) >=? zero then
    match IsIntersecting_Plane s planeP p_hit with
    | (true, hit') =>
        if DistanceSqr (Intersection.m_impact hit') pointP <=? radiusSqr
        then (true, hit')
        else fromQ hit'
    | (false, hit') => (false, hit')
    end
  else fromQ p_hit.

Definition IsIntersecting_Capsule (s : t) (p_capsule : Capsule.t F)
  (p_hit : Intersection.t F) : bool * Intersection.t F :=
  let pointP := (Capsule.m_origin p_capsule
                 + Capsule.m_direction p_capsule * Capsule.m_height p_capsule / two)%V in
  let pointQ := (Capsule.m_origin p_capsule
                 - Capsule.m_direction p_capsule * Capsule.m_height p_capsule / two)%V in
  let planeP := Plane.of_point (Capsule.m_direction p_capsule) pointP in
  let planeQ := Plane.of_point (- Capsule.m_direction p_capsule)%V pointQ in
  let sphereP := IsIntersecting_Sphere s (Sphere.mk pointP (Capsule.m_radius p_capsule)) in
  let sphereQ := IsIntersecting_Sphere s (Sphere.mk pointQ (Capsule.m_radius p_capsule)) in
  let body :=
    IsIntersecting_Cylinder s
      (Cylinder.mk (Capsule.m_origin p_capsule) (Capsule.m_direction p_capsule)
         (Capsule.m_height p_capsule) (Capsule.m_radius p_capsule)) in
  if Plane.GetSide planeP (m_ptA s) >=? zero then first_hit [sphereP; body; sphereQ] p_hit
  else if Plane.GetSide planeQ (m_ptA s) >=? zero then first_hit [sphereQ; body; sphereP] p_hit
  else first_hit [body; sphereP; sphereQ] p_hit.
End Segment.
Arguments t F : clear implicits.
End Segment.

(** ** Raycast (Sources/Raycast.cpp) *)

Module Raycast.
Section Raycast.
Context {F : Type} {SF : Scalar F}.
Local Open Scope scalar_scope.
Import Vector3.

Record t : Type :=
  mk { m_origin : Vector3.t F; m_direction : Vector3.t F; m_maxDistance : F }.

Definition IsIntersecting_Plane (r : t) (p_plane : Plane.t F) (p_hit : Intersection.t F)
  : bool * Intersection.t F :=
  let ray := (m_direction r * m_maxDistance r)%V in
  let dot := Dot ray (Plane.m_normal p_plane) in
  if dot ==? zero then (false, p_hit)
  else
    let t := Plane.m_distance p_plane - Dot (m_origin r) (Plane.m_normal p_plane) / dot in
    if (t >=? zero) && (t <=? one) then
      (true,
       Intersection.mk (m_origin r + ray * t)%V
         (if dot >? zero then (- Plane.m_normal p_plane)%V else Plane.m_normal p_plane))
    else (false, p_hit).

Definition IsIntersecting_AABB (r : t) (p_aabb : AABB.t F) (p_hit : Intersection.t F)
  : bool * Intersection.t F :=
  let target := (m_origin r + m_direction r * m_maxDistance r)%V in
  match AABB.slab p_aabb (m_origin r) target with
  | None => (false, p_hit)
  | Some (tmin, tmax) =>
      if tmin ==? zero then (false, p_hit)
      else
        let impact := (m_origin r + m_direction r * tmin)%V in
        (true, Intersection.mk impact (AABB.Normal p_aabb impact))
  end.

Definition IsIntersecting_Sphere (r : t) (p_sphere : Sphere.t F) (p_hit : Intersection.t F)
  : bool * Intersection.t F :=
  let ray := (m_direction r * m_maxDistance r)%V in
  let sphereVector := (Sphere.m_origin p_sphere - m_origin r)%V in
  let a := GetSqrMagnitude ray in
  let b := two * Dot sphereVector ray in
  let c := GetSqrMagnitude sphereVector - Sphere.m_radius p_sphere * Sphere.m_radius p_sphere in
  let delta := b * b - four * a * c in
  if delta <? zero then (false, p_hit)
  else
    let t := (- b - fsqrt delta) / (two * a) in
    if (t >=? zero) && (t <=? one) then
      let impact := (m_origin r + ray * t)%V in
      (true, Intersection.mk impact (GetNormalize (impact - Sphere.m_origin p_sphere)%V))
    else (false, p_hit).

Definition IsIntersecting_InfiniteCylinder (r : t) (p_cylinder : InfiniteCylinder.t F)
  (p_hit : Intersection.t F) : bool * Intersection.t F :=
  let ray := (m_direction r * m_maxDistance r)%V in
  let cylinderToSegment := (m_origin r - InfiniteCylinder.m_origin p_cylinder)%V in
  let direction := InfiniteCylinder.m_direction p_cylinder in
  let dot1 := Dot ray direction in
  let dot2 := Dot cylinderToSegment direction in
  let a := GetSqrMagnitude ray - dot1 * dot1 in
  let b := two * Dot cylinderToSegment ray - two * dot1 * dot2 in
  let c := GetSqrMagnitude cylinderToSegment - dot2 * dot2
           - InfiniteCylinder.m_radius p_cylinder * InfiniteCylinder.m_radius p_cylinder in
  let delta := b * b - four * a * c in
  if delta <? zero then (false, p_hit)
  else
    let t := (- b - fsqrt delta) / (two * a) in
    if (t >=? zero) && (t <=? one) then
      let impact := (m_origin r + ray * t)%V in
      let axisLine := Line.mk (InfiniteCylinder.m_origin p_cylinder)
                              (InfiniteCylinder.m_direction p_cylinder) in
      (true,
       Intersection.mk impact (GetNormalize (impact - Line.ClosestPointOnLine axisLine impact)%V))
    else (false, p_hit).

Definition IsIntersecting_Cylinder (r : t) (p_cylinder : Cylinder.t F)
  (p_hit : Intersection.t F) : bool * Intersection.t F :=
  let ray := (m_direction r * m_maxDistance r)%V in
  let target := (m_origin r + ray)%V in
  let pointP := (Cylinder.m_origin p_cylinder
                 + Cylinder.m_direction p_cylinder * Cylinder.m_height p_cylinder / two)%V in
  let pointQ := (Cylinder.m_origin p_cylinder
                 - Cylinder.m_direction p_cylinder * Cylinder.m_height p_cylinder / two)%V in
  let planeP := Plane.of_point (Cylinder.m_direction p_cylinder) pointP in
  let planeQ := Plane.of_point (- Cylinder.m_direction p_cylinder)%V pointQ in
  let radiusSqr := Cylinder.m_radius p_cylinder * Cylinder.m_radius p_cylinder in
  let lateral (hit : Intersection.t F) :=
    IsIntersecting_InfiniteCylinder r
      (InfiniteCylinder.mk (Cylinder.m_origin p_cylinder)
         (Cylinder.m_direction p_cylinder) (Cylinder.m_radius p_cylinder)) hit in
  let fromQ (hit : Intersection.t F) :=
    if Plane.GetSide planeQ (m_origin r) >=? zero then
      match IsIntersecting_Plane r planeQ hit with
      | (true, hit') =>
          if DistanceSqr (Intersection.m_impact hit') pointQ <=? radiusSqr
          then (true, hit')
          else lateral hit'
      | (false, hit') => (false, hit')
      end
    else lateral hit in
  if (Plane.GetSide planeP target >=? zero) || (Plane.GetSide planeQ target >=? zero)
  then (false, p_hit)
  else if Plane.GetSide planeP (m_origin r) >=? zero then
    match IsIntersecting_Plane r planeP p_hit with
    | (true, hit') =>
        if DistanceSqr (Intersection.m_impact hit') pointP <=? radiusSqr
        then (true, hit')
        else fromQ hit'
    | (false, hit') => (false, hit')
    end
  else fromQ p_hit.

Definition IsIntersecting_Capsule (r : t) (p_capsule : Capsule.t F)
  (p_hit : Intersection.t F) : bool * Intersection.t F :=
  let pointP := (Capsule.m_origin p_capsule
                 + Capsule.m_direction p_capsule * Capsule.m_height p_capsule / two)%V in
  let pointQ := (Capsule.m_origin p_capsule
                 - Capsule.m_direction p_capsule * Capsule.m_height p_capsule / two)%V in
  let planeP := Plane.of_point (Capsule.m_direction p_capsule) pointP in
  let planeQ := Plane.of_point (- Capsule.m_direction p_capsule)%V pointQ in
  let sphereP := IsIntersecting_Sphere r (Sphere.mk pointP (Capsule.m_radius p_capsule)) in
  let sphereQ := IsIntersecting_Sphere r (Sphere.mk pointQ (Capsule.m_radius p_capsule)) in
  let body :=
    IsIntersecting_Cylinder r
      (Cylinder.mk (Capsule.m_origin p_capsule) (Capsule.m_direction p_capsule)
         (Capsule.m_height p_capsule) (Capsule.m_radius p_capsule)) in
  if Plane.GetSide planeP (m_origin r) >=? zero
  then first_hit [sphereP; body; sphereQ] p_hit
  else if Plane.GetSide planeQ (m_origin r) >=? zero
  then first_hit [sphereQ; body; sphereP] p_hit
  else first_hit [body; sphereP; sphereQ] p_hit.
End Raycast.
Arguments t F : clear implicits.
End Raycast.

(** ** The moving sphere (Sources/Sphere.cpp) *)

Section MovingSphere.
Context {F : Type} {SF : Scalar F}.
Local Open Scope scalar_scope.
Import Vector3.


(** The codes [u] (below the minimum) and [v] (above the maximum) of a
    point against a box: bit 0 for x, bit 1 for y, bit 2 for z. *)
Definition region_u (p_aabb : AABB.t F) (impact : Vector3.t F) : Z :=
  let min := AABB.GetMin p_aabb in
  let u := 0%Z in
  let u := if m_x impact <? m_x min then Z.lor u 1 else u in
  let u := if m_y impact <? m_y min then Z.lor u 2 else u in
  let u := if m_z impact <? m_z min then Z.lor u 4 else u in
  u.

Definition region_v (p_aabb : AABB.t F) (impact : Vector3.t F) : Z :=
  let max := AABB.GetMax p_aabb in
  let v := 0%Z in
  let v := if m_x impact >? m_x max then Z.lor v 1 else v in
  let v := if m_y impact >? m_y max then Z.lor v 2 else v in
  let v := if m_z impact >? m_z max then Z.lor v 4 else v in
  v.

(** One of the three capsule tests of the vertex region: [tmpHit] is
    shared by the three tests, [p_hit] keeps the nearest hit so far. *)
Definition vertex_candidate (origin : Vector3.t F) (movement : Segment.t F)
  (capsule : Capsule.t F) (st : Intersection.t F * Intersection.t F)
  : Intersection.t F * Intersection.t F :=
  let '(tmpHit, p_hit) := st in
  match Segment.IsIntersecting_Capsule movement capsule tmpHit with
  | (true, tmpHit') =>
      if DistanceSqr origin (Intersection.m_impact tmpHit')
         <? DistanceSqr origin (Intersection.m_impact p_hit)
      then (tmpHit', tmpHit')
      else (tmpHit', p_hit)
  | (false, tmpHit') => (tmpHit', p_hit)
  end.

(** [Sphere::IsMovingSphereColliding (const AABB&, const Vector3&, Intersection&)]. *)
Definition Sphere_IsMovingSphereColliding (s : Sphere.t F) (p_aabb : AABB.t F)
  (p_speed : Vector3.t F) (p_hit : Intersection.t F) : bool * Intersection.t F :=
  let expandedAABB := AABB.Expand p_aabb (Sphere.m_radius s) in
  let movement := Segment.mk (Sphere.m_origin s) (Sphere.m_origin s + p_speed)%V in
  match Segment.IsIntersecting_AABB movement expandedAABB p_hit with
  | (false, p_hit) => (false, p_hit)
  | (true, p_hit) =>
      let u := region_u p_aabb (Intersection.m_impact p_hit) in
      let v := region_v p_aabb (Intersection.m_impact p_hit) in
      let m := (u + v)%Z in
      if Z.eqb m 7 then
        let tmpHit := Intersection.default in
        let p_hit := Intersection.set_impact p_hit (Vector3.mk FLT_MAX FLT_MAX FLT_MAX) in
        let capsule k :=
          Capsule.of_points (AABB.Corner p_aabb v) (AABB.Corner p_aabb (Z.lxor v k))
            (Sphere.m_radius s) in
        let st := (tmpHit, p_hit) in
        let st := vertex_candidate (Sphere.m_origin s) movement (capsule 1%Z) st in
        let st := vertex_candidate (Sphere.m_origin s) movement (capsule 2%Z) st in
        let st := vertex_candidate (Sphere.m_origin s) movement (capsule 4%Z) st in
        let p_hit := snd st in
        if Vector3.eqb (Intersection.m_impact p_hit) (Vector3.mk FLT_MAX FLT_MAX FLT_MAX)
        then (false, Intersection.Reset p_hit)
        else (true, p_hit)
      else if Z.eqb (Z.land m (m - 1)) 0 then
        (true,
         Intersection.set_impact p_hit (AABB.ClosestPoint p_aabb (Intersection.m_impact p_hit)))
      else
        Segment.IsIntersecting_Capsule movement
          (Capsule.of_points (AABB.Corner p_aabb (Z.lxor u 7)) (AABB.Corner p_aabb v)
             (Sphere.m_radius s))
          p_hit
  end.
End MovingSphere.

(** ** OBB and Range (Sources/OBB.cpp, Sources/Range.cpp, Inlines/Range.inl) *)

Module OBB.
Section OBB.
Context {F : Type} {SF : Scalar F}.
Local Open Scope scalar_scope.
Import Vector3.

Record t : Type :=
  mk { m_origin : Vector3.t F; m_extents : Vector3.t F; m_angle : Vector3.t F }.

(** [rotate angle w] stands for
    [Matrix4x4::Rotate(Quaternion::Euler(angle)) * w], which the code
    computes with [std::cos] and [std::sin] of the C library. *)
Variable rotate : Vector3.t F -> Vector3.t F -> Vector3.t F.

Definition GetVertices (b : t) : list (Vector3.t F) :=
  let ex := m_x (m_extents b) in
  let ey := m_y (m_extents b) in
  let ez := m_z (m_extents b) in
  let vertex x y z := (m_origin b + rotate (m_angle b) (Vector3.mk x y z))%V in
  [ vertex (- ex) ey ez; vertex ex ey ez; vertex (- ex) (- ey) ez; vertex ex (- ey) ez;
    vertex ex ey (- ez); vertex (- ex) ey (- ez); vertex ex (- ey) (- ez);
    vertex (- ex) (- ey) (- ez) ].
End OBB.
Arguments t F : clear implicits.
End OBB.

Module Range.
Section Range.
Context {F : Type} {SF : Scalar F}.
Local Open Scope scalar_scope.

Record t : Type := mk { m_min : F; m_max : F }.

Variable rotate : Vector3.t F -> Vector3.t F -> Vector3.t F.

Definition SAT_step (p_vector : Vector3.t F) (range : t) (vertex : Vector3.t F) : t :=
  let dot := Vector3.Dot p_vector vertex in
  mk (Min (m_min range) dot) (Max (m_max range) dot).

Definition SAT (p_vector : Vector3.t F) (p_obb : OBB.t F) : t :=
  fold_left (SAT_step p_vector) (OBB.GetVertices rotate p_obb) (mk FLT_MAX FLT_MIN).

Definition IsOverlapping (r p_other : t) : bool :=
  if (m_max r <? m_min p_other) || (m_min r >? m_max p_other) then false else true.
End Range.
Arguments t F : clear implicits.
End Range.

(** ** Inputs of the scenarios *)

Section Scenarios.
Context {F : Type} {SF : Scalar F}.
Local Open Scope scalar_scope.

(** The vector of three integer literals. *)
Definition vec (x y z : Z) : Vector3.t F := Vector3.mk (lit x) (lit y) (lit z).

(** The segment that spans the same probe as a ray: from its origin to
    [origin + direction * maxDistance]. *)
Definition Raycast_target (r : Raycast.t F) : Vector3.t F :=
  (Raycast.m_origin r + Raycast.m_direction r * Raycast.m_maxDistance r)%V.
Definition segment_of_ray (r : Raycast.t F) : Segment.t F :=
  Segment.mk (Raycast.m_origin r) (Raycast_target r).

(** [x] is [y], up to [2^-10]. *)
Definition near (x y : F) : bool := fabs (x - y) <=? dyadic 1 (-10).

(** The separation test in the words of the specification: some axis has
    [|origin_a - origin_b| > extents_a + extents_b]. *)
Definition separated_on (a b : AABB.t F) (i : axis) : bool :=
  fabs (Vector3.get (AABB.m_origin a) i - Vector3.get (AABB.m_origin b) i)
  >? Vector3.get (AABB.GetExtents a) i + Vector3.get (AABB.GetExtents b) i.
Definition separated (a b : AABB.t F) : bool :=
  separated_on a b X || separated_on a b Y || separated_on a b Z_.

(** The corner in the words of the specification: bit 0 of [n] selects x,
    bit 1 selects y, bit 2 selects z. *)
Definition corner_by_bits (b : AABB.t F) (n : Z) : Vector3.t F :=
  Vector3.mk
    (if Z.testbit n 0 then Vector3.m_x (AABB.GetMax b) else Vector3.m_x (AABB.GetMin b))
    (if Z.testbit n 1 then Vector3.m_y (AABB.GetMax b) else Vector3.m_y (AABB.GetMin b))
    (if Z.testbit n 2 then Vector3.m_z (AABB.GetMax b) else Vector3.m_z (AABB.GetMin b)).

(** The slab traversal ends with the entry parameter [tmin] equal to 0. *)
Definition enters_at_zero (b : AABB.t F) (p_from p_to : Vector3.t F) : Prop :=
  exists tmin tmax, AABB.slab b p_from p_to = Some (tmin, tmax) /\ (tmin ==? zero) = true.

(** The box of size 2 centred at [(x, y, z)]. *)
Definition box2 (x y z : Z) : AABB.t F := AABB.make (vec x y z) (vec 2 2 2).

(** Exactly one bit of a region code in [0, 7] is set. *)
Definition one_bit (m : Z) : bool := Z.eqb m 1 || Z.eqb m 2 || Z.eqb m 4.

(** The first step of [IsMovingSphereColliding]: the hit of the movement
    on the box expanded by the radius. *)
Definition raw_hit (s : Sphere.t F) (p_aabb : AABB.t F) (p_speed : Vector3.t F)
  (p_hit : Intersection.t F) : bool * Intersection.t F :=
  Segment.IsIntersecting_AABB
    (Segment.mk (Sphere.m_origin s) (Sphere.m_origin s + p_speed)%V)
    (AABB.Expand p_aabb (Sphere.m_radius s)) p_hit.

(** The region code [u | v] of the raw impact against the box. *)
Definition raw_region (s : Sphere.t F) (p_aabb : AABB.t F) (p_speed : Vector3.t F)
  (p_hit : Intersection.t F) : Z :=
  let impact := Intersection.m_impact (snd (raw_hit s p_aabb p_speed p_hit)) in
  Z.lor (region_u p_aabb impact) (region_v p_aabb impact).

(** Scenario 5 of the specification. *)
Definition scenario5_sphere : Sphere.t F := Sphere.mk (vec 0 0 0) (halves 1).
Definition scenario5_box : AABB.t F := box2 3 0 0.
Definition scenario5_displacement : Vector3.t F := vec 5 0 0.

(** The eight corners of the box of extents [(1, 1, 1)], relative to its
    origin, in the order of [OBB::GetVertices]. *)
Definition unit_corners : list (Vector3.t F) :=
  [ vec (-1) 1 1; vec 1 1 1; vec (-1) (-1) 1; vec 1 (-1) 1;
    vec 1 1 (-1); vec (-1) 1 (-1); vec 1 (-1) (-1); vec (-1) (-1) (-1) ].
End Scenarios.

(** The scalar type of the code. *)
Definition float : Type := Binary32.float.

(** Two vectors of rationals denote the same point: their members are
    equal as rationals. *)
Definition veq (a b : Vector3.t Q) : Prop :=
  (Vector3.m_x a == Vector3.m_x b /\ Vector3.m_y a == Vector3.m_y b
   /\ Vector3.m_z a == Vector3.m_z b)%Q.

(** * Properties *)

(** The division of a vector by the literal [2.0f] does not throw. *)
Lemma div_by_two_returns {F : Type} {SF : Scalar F} : Vector3.div_throws (two : F) = false.
Proof. exact two_not_zero. Qed.

(** ** AABB: corners and static collision *)

Lemma land_1_odd (n : Z) : nonzero (Z.land n 1) = Z.odd n.
Proof.
  unfold nonzero.
  change 1%Z with (Z.ones 1). rewrite Z.land_ones by lia.
  rewrite Zmod_odd. destruct (Z.odd n); reflexivity.
Qed.

(** The three coordinates of [Corner] all follow bit 0 of [p_n]. *)
Lemma Corner_parity {F : Type} {SF : Scalar F} (b : AABB.t F) (n : Z) :
  AABB.Corner b n = if Z.odd n then AABB.m_max b else AABB.m_min b.
Proof.
  unfold AABB.Corner. rewrite land_1_odd.
  destruct (Z.odd n); [destruct (AABB.m_max b) | destruct (AABB.m_min b)]; reflexivity.
Qed.

(** C8 (the code departs from the claim).  [Corner] reads bit 0 of [p_n]
    for the three coordinates: it returns the maximum corner for every odd
    [p_n] and the minimum corner for every even one.  On the box of size 2
    at the origin, [Corner(2)] is [(-1, -1, -1)], where selection by bits
    gives [(-1, 1, -1)], and the eight values of [p_n] reach two corners
    only. *)
Theorem Corner_reads_bit_0_only :
  (forall (F : Type) (SF : Scalar F) (b : AABB.t F) (n : Z),
      AABB.Corner b n = if Z.odd n then AABB.m_max b else AABB.m_min b) /\
  AABB.Corner (box2 0 0 0 : AABB.t float) 2 = vec (-1) (-1) (-1) /\
  corner_by_bits (box2 0 0 0 : AABB.t float) 2 = vec (-1) 1 (-1) /\
  map (AABB.Corner (box2 0 0 0 : AABB.t float)) [0; 1; 2; 3; 4; 5; 6; 7]%Z
  = [vec (-1) (-1) (-1); vec 1 1 1; vec (-1) (-1) (-1); vec 1 1 1;
     vec (-1) (-1) (-1); vec 1 1 1; vec (-1) (-1) (-1); vec 1 1 1].
Proof.
  split; [intros; apply Corner_parity | ].
  repeat split; vm_compute; reflexivity.
Qed.

(** [IsColliding] answers [false] exactly when the three signed
    differences of the origins all exceed the sums of the extents. *)
Lemma IsColliding_false_iff {F : Type} {SF : Scalar F} (a b : AABB.t F) :
  AABB.IsColliding a b = false <->
  (forall i, (Vector3.get (AABB.m_origin a) i - Vector3.get (AABB.m_origin b) i
              >? Vector3.get (AABB.m_extents a) i + Vector3.get (AABB.GetExtents b) i)%F = true).
Proof.
  unfold AABB.IsColliding. split.
  - intros H i.
    destruct (_ && _ && _) eqn:E; [ | discriminate].
    apply andb_prop in E as [E Ez]. apply andb_prop in E as [Ex Ey].
    destruct i; assumption.
  - intros H. generalize (H X) (H Y) (H Z_). simpl. intros -> -> ->. reflexivity.
Qed.

(** C4 (the code departs from the claim).  The boxes of size 2 centred at
    [(0, 0, 0)] and [(3, 0, 0)] are separated on the x axis,
    [|0 - 3| > 1 + 1], and [IsColliding] answers [true] for them, in both
    orders: the code compares the signed difference, and asks for the three
    axes at once. *)
Theorem IsColliding_misses_separating_axis :
  let a : AABB.t float := box2 0 0 0 in
  let b : AABB.t float := box2 3 0 0 in
  separated_on a b X = true /\ separated a b = true /\
  AABB.IsColliding a b = true /\ AABB.IsColliding b a = true.
Proof. repeat split; vm_compute; reflexivity. Qed.

(** ** Ray and segment against the same shape *)

(** On a box the two testers run the same traversal and give the same
    answer; on a hit they take the impact from the same [tmin], the segment
    along [ptB - ptA] and the ray along [m_direction]. *)
Lemma Raycast_Segment_AABB_same_traversal {F : Type} {SF : Scalar F}
  (r : Raycast.t F) (b : AABB.t F) (h : Intersection.t F) :
  fst (Raycast.IsIntersecting_AABB r b h) = fst (Segment.IsIntersecting_AABB (segment_of_ray r) b h)
  /\ forall tmin tmax,
       AABB.slab b (Raycast.m_origin r) (Raycast_target r) = Some (tmin, tmax) ->
       (tmin ==? zero)%F = false ->
       Intersection.m_impact (snd (Raycast.IsIntersecting_AABB r b h))
       = (Raycast.m_origin r + Raycast.m_direction r * tmin)%V /\
       Intersection.m_impact (snd (Segment.IsIntersecting_AABB (segment_of_ray r) b h))
       = (Raycast.m_origin r + (Raycast_target r - Raycast.m_origin r) * tmin)%V.
Proof.
  unfold Raycast.IsIntersecting_AABB, Segment.IsIntersecting_AABB, Segment.GetAB, segment_of_ray.
  cbn [Segment.m_ptA Segment.m_ptB]. fold (Raycast_target r).
  destruct (AABB.slab b (Raycast.m_origin r) (Raycast_target r)) as [[tmin tmax] | ].
  - split.
    + destruct (tmin ==? zero)%F; reflexivity.
    + intros tmin' tmax' E Hnz. inversion E; subst. rewrite Hnz. split; reflexivity.
  - split; [reflexivity | discriminate].
Qed.

(** C1 (the code departs from the claim).  The ray from [(0, 0, 0)] along
    [(1, 0, 0)] with [maxDistance = 8] and the segment from [(0, 0, 0)] to
    [(8, 0, 0)] both hit the box of size 2 centred at [(5, 0, 0)], at the
    parameter [tmin = 1/2].  The segment reports the impact
    [ptA + AB * tmin = (4, 0, 0)], on the face of the box, with the normal
    [(-1, 0, 0)]; the ray reports [origin + direction * tmin = (1/2, 0, 0)],
    the direction not scaled by [maxDistance], with the normal
    [(0, 0, 0)]. *)
Theorem Raycast_and_Segment_differ_on_AABB :
  let r : Raycast.t float := Raycast.mk (vec 0 0 0) (vec 1 0 0) (lit 8) in
  let b : AABB.t float := box2 5 0 0 in
  forall h : Intersection.t float,
    segment_of_ray r = Segment.mk (vec 0 0 0) (vec 8 0 0) /\
    Raycast.IsIntersecting_AABB r b h
    = (true, Intersection.mk (Vector3.mk (halves 1) zero zero) Vector3.Zero) /\
    Segment.IsIntersecting_AABB (segment_of_ray r) b h
    = (true, Intersection.mk (vec 4 0 0) (- Vector3.Right)%V).
Proof. intros r b h. repeat split; vm_compute; reflexivity. Qed.

(** ** Ray against a sphere *)

(** C2 (the code departs from the claim).  On the scenario of the
    specification, the ray from [(0, 0, -5)] along [(0, 0, 1)] with
    [maxDistance = 10] against the unit sphere at the origin, the code
    reports no hit: with [sphereVector = center - origin] the linear
    coefficient [b = 2 * Dot(sphereVector, ray)] has the sign of the
    quadratic of the opposite ray, and the root is [t = -3/5].  The opposite
    ray, which leaves the sphere behind, is reported to hit it at
    [(0, 0, -9)]. *)
Theorem Raycast_Sphere_scenario_is_missed :
  let s : Sphere.t float := Sphere.mk (vec 0 0 0) (lit 1) in
  forall h : Intersection.t float,
    Raycast.IsIntersecting_Sphere (Raycast.mk (vec 0 0 (-5)) (vec 0 0 1) (lit 10)) s h
    = (false, h) /\
    Raycast.IsIntersecting_Sphere (Raycast.mk (vec 0 0 (-5)) (vec 0 0 (-1)) (lit 10)) s h
    = (true, Intersection.mk (vec 0 0 (-9)) (vec 0 0 (-1))).
Proof. intros s h. split; vm_compute; reflexivity. Qed.

(** ** Ray and segment against a plane *)

(** C5 (the code departs from the claim).  The plane of normal [(0, 0, 1)]
    through [(0, 0, 2)] has [distance = -2].  The probe from [(0, 0, 0)] to
    [(0, 0, 4)] crosses it at [t = 1/2], and both testers report no hit:
    the code computes [t = distance - Dot(origin, normal) / dot = -2].  The
    segment from [(0, 0, 1)] to [(0, 0, 5)] stays above the plane [z = -1]
    (of [distance = 1]), and is reported to hit it, at [t = 3/4] and the
    impact [(0, 0, 4)], which is at [5] from the plane. *)
Theorem Plane_test_does_not_solve_the_equation :
  let p : Plane.t float := Plane.of_point (vec 0 0 1) (vec 0 0 2) in
  let s : Segment.t float := Segment.mk (vec 0 0 0) (vec 0 0 4) in
  let r : Raycast.t float := Raycast.mk (vec 0 0 0) (vec 0 0 1) (lit 4) in
  let p' : Plane.t float := Plane.of_point (vec 0 0 1) (vec 0 0 (-1)) in
  let s' : Segment.t float := Segment.mk (vec 0 0 1) (vec 0 0 5) in
  forall h : Intersection.t float,
    Plane.m_distance p = lit (-2) /\
    Plane.GetSide p (Segment.m_ptA s + Segment.GetAB s * halves 1)%V = zero /\
    Segment.IsIntersecting_Plane s p h = (false, h) /\
    Raycast.IsIntersecting_Plane r p h = (false, h) /\
    Plane.GetSide p' (Segment.m_ptA s') = lit 2 /\
    Plane.GetSide p' (Segment.m_ptB s') = lit 6 /\
    Segment.IsIntersecting_Plane s' p' h
    = (true, Intersection.mk (vec 0 0 4) (- vec 0 0 1)%V) /\
    Plane.GetSide p' (vec 0 0 4) = lit 5.
Proof. intros p s r p' s' h. repeat split; vm_compute; reflexivity. Qed.

(** ** The moving sphere against a box *)

(** C3, as the specification states it, fails: on its scenario the call
    returns [true] and the raw impact is in the face region, but the
    reported impact has [x = 2], which is not [1.5]. *)
Lemma swept_face_scenario_impact_is_not_1_5 :
  ~ (fst (Sphere_IsMovingSphereColliding (scenario5_sphere : Sphere.t float)
            scenario5_box scenario5_displacement Intersection.default) = true /\
     one_bit (raw_region (scenario5_sphere : Sphere.t float)
                scenario5_box scenario5_displacement Intersection.default) = true /\
     near (Vector3.m_x (Intersection.m_impact
             (snd (Sphere_IsMovingSphereColliding (scenario5_sphere : Sphere.t float)
                     scenario5_box scenario5_displacement Intersection.default))))
          (halves 3) = true).
Proof. vm_compute. intros (_ & _ & H). discriminate H. Qed.

(** C3 (amended).  The sphere of radius 1/2 at the origin, moved by
    [(5, 0, 0)] against the box of size 2 centred at [(3, 0, 0)]: the
    segment of the movement enters the expanded box at [(1.5, 0, 0)], the
    face [x = 2] of the box minus the radius; this raw impact is below the
    minimum of the box on x only ([u = 1], [v = 0], one bit: the face
    region); the call returns [true] and reports the raw impact moved to
    the closest point of the box, [(2, 0, 0)], on the face [x = 2], with
    the normal [(-1, 0, 0)]. *)
Theorem swept_face_scenario :
  forall h : Intersection.t float,
    raw_hit (scenario5_sphere : Sphere.t float) scenario5_box scenario5_displacement h
    = (true, Intersection.mk (Vector3.mk (halves 3) zero zero) (- Vector3.Right)%V) /\
    region_u (scenario5_box : AABB.t float) (Vector3.mk (halves 3) zero zero) = 1%Z /\
    region_v (scenario5_box : AABB.t float) (Vector3.mk (halves 3) zero zero) = 0%Z /\
    one_bit (raw_region (scenario5_sphere : Sphere.t float)
               scenario5_box scenario5_displacement h) = true /\
    AABB.ClosestPoint (scenario5_box : AABB.t float) (Vector3.mk (halves 3) zero zero)
    = vec 2 0 0 /\
    Sphere_IsMovingSphereColliding (scenario5_sphere : Sphere.t float)
      scenario5_box scenario5_displacement h
    = (true, Intersection.mk (vec 2 0 0) (- Vector3.Right)%V).
Proof. intros h. repeat split; vm_compute; reflexivity. Qed.

(** In the face region the call returns [true], and reports the raw hit
    with its impact moved to the closest point of the box. *)
Lemma face_region_snaps_the_impact {F : Type} {SF : Scalar F}
  (s : Sphere.t F) (b : AABB.t F) (d : Vector3.t F) (h raw : Intersection.t F) :
  raw_hit s b d h = (true, raw) ->
  one_bit (region_u b (Intersection.m_impact raw) + region_v b (Intersection.m_impact raw)) = true ->
  Sphere_IsMovingSphereColliding s b d h
  = (true, Intersection.mk (AABB.ClosestPoint b (Intersection.m_impact raw))
                           (Intersection.m_normal raw)).
Proof.
  unfold raw_hit, Sphere_IsMovingSphereColliding. intros -> Hm.
  unfold one_bit in Hm.
  destruct (Z.eqb_spec (region_u b (Intersection.m_impact raw)
                        + region_v b (Intersection.m_impact raw)) 1) as [-> | _];
    [reflexivity | ].
  destruct (Z.eqb_spec (region_u b (Intersection.m_impact raw)
                        + region_v b (Intersection.m_impact raw)) 2) as [-> | _];
    [reflexivity | ].
  destruct (Z.eqb_spec (region_u b (Intersection.m_impact raw)
                        + region_v b (Intersection.m_impact raw)) 4) as [-> | _];
    [reflexivity | discriminate Hm].
Qed.

(** When the dispatch takes the vertex branch and reports no collision,
    the [Intersection] is the default one. *)
Lemma vertex_region_failure_resets {F : Type} {SF : Scalar F}
  (s : Sphere.t F) (b : AABB.t F) (d : Vector3.t F) (h raw h' : Intersection.t F) :
  raw_hit s b d h = (true, raw) ->
  (region_u b (Intersection.m_impact raw) + region_v b (Intersection.m_impact raw) = 7)%Z ->
  Sphere_IsMovingSphereColliding s b d h = (false, h') ->
  h' = Intersection.default.
Proof.
  unfold raw_hit. intros Hraw Hm. unfold Sphere_IsMovingSphereColliding.
  rewrite Hraw, Hm. simpl Z.eqb. cbv iota.
  destruct (Vector3.eqb _ _); intros E; inversion E. reflexivity.
Qed.

(** When the dispatch takes the edge branch, the result of the call is the
    result of the capsule test, started from the raw hit. *)
Lemma edge_region_returns_the_capsule_test {F : Type} {SF : Scalar F}
  (s : Sphere.t F) (b : AABB.t F) (d : Vector3.t F) (h raw : Intersection.t F) :
  raw_hit s b d h = (true, raw) ->
  let u := region_u b (Intersection.m_impact raw) in
  let v := region_v b (Intersection.m_impact raw) in
  Z.eqb (u + v) 7 = false ->
  Z.eqb (Z.land (u + v) (u + v - 1)) 0 = false ->
  Sphere_IsMovingSphereColliding s b d h
  = Segment.IsIntersecting_Capsule
      (Segment.mk (Sphere.m_origin s) (Sphere.m_origin s + d)%V)
      (Capsule.of_points (AABB.Corner b (Z.lxor u 7)) (AABB.Corner b v) (Sphere.m_radius s))
      raw.
Proof.
  intros Hraw u v H7 Hface. unfold raw_hit in Hraw.
  unfold Sphere_IsMovingSphereColliding.
  rewrite Hraw. fold u v. rewrite H7, Hface. reflexivity.
Qed.

(** C6 (the code departs from the claim).  The sphere of radius 1 at
    [(4, 1.5, 0)], moved by [(-4, 0, 0)] against the box of size 2 at the
    origin: the movement enters the expanded box at [(2, 1.5, 0)], above
    the maximum of the box on x and on y ([u = 0], [v = 3]: the edge
    region).  The edge branch returns the result of the capsule test as it
    is; the test fails, the call returns [false], and the [Intersection]
    still holds the raw hit on the expanded box, impact [(2, 1.5, 0)] and
    normal [(1, 0, 0)], not the default one. *)
Theorem swept_edge_failure_keeps_the_raw_hit :
  let s : Sphere.t float := Sphere.mk (Vector3.mk (lit 4) (halves 3) zero) (lit 1) in
  let b : AABB.t float := box2 0 0 0 in
  let raw : Intersection.t float :=
    Intersection.mk (Vector3.mk (lit 2) (halves 3) zero) Vector3.Right in
  forall h : Intersection.t float,
    raw_hit s b (vec (-4) 0 0) h = (true, raw) /\
    region_u b (Intersection.m_impact raw) = 0%Z /\
    region_v b (Intersection.m_impact raw) = 3%Z /\
    Sphere_IsMovingSphereColliding s b (vec (-4) 0 0) h = (false, raw) /\
    raw <> Intersection.default.
Proof.
  intros s b raw h. repeat split; try (vm_compute; reflexivity).
  vm_compute. discriminate.
Qed.

(** ** Range.SAT *)

(** In exact arithmetic the maximum that [SAT] returns is never below its
    initial value [__FLT_MIN__], which is positive: it is not the maximum
    of the projections when they are all negative. *)
Lemma SAT_max_at_least_FLT_MIN (sq : Q -> Q)
  (rotate : Vector3.t Q -> Vector3.t Q -> Vector3.t Q) (p_vector : Vector3.t Q) (p_obb : OBB.t Q) :
  (0 < FLT_MIN (SF := Exact.scalar_with sq))%Q /\
  (FLT_MIN (SF := Exact.scalar_with sq)
   <= Range.m_max (Range.SAT (SF := Exact.scalar_with sq) rotate p_vector p_obb))%Q.
Proof.
  split; [reflexivity | ].
  unfold Range.SAT.
  generalize (OBB.GetVertices (SF := Exact.scalar_with sq) rotate p_obb) as vertices.
  assert (H : (FLT_MIN (SF := Exact.scalar_with sq)
               <= Range.m_max (Range.mk (FLT_MAX (SF := Exact.scalar_with sq))
                                        (FLT_MIN (SF := Exact.scalar_with sq))))%Q)
    by apply Qle_refl.
  revert H. generalize (Range.mk (FLT_MAX (SF := Exact.scalar_with sq))
                                 (FLT_MIN (SF := Exact.scalar_with sq))) as range.
  intros range H vertices. revert range H.
  induction vertices as [ | vertex vertices IH]; intros range H; [exact H | ].
  apply IH. unfold Range.SAT_step, Max. cbn [Range.m_max fltb Exact.scalar_with].
  unfold Exact.Qltb.
  destruct (Qle_bool (Range.m_max range) _) eqn:E; cbn [negb]; [ | exact H].
  apply Qle_bool_iff in E. eapply Qle_trans; eassumption.
Qed.

(** C7 (the code departs from the claim).  The box of extents
    [(1, 1, 1)] at [(-5, 0, 0)], not rotated, projects on the axis
    [(1, 0, 0)] to [-6] and [-4]: the eight projections are negative.
    [SAT] returns the minimum [-6] and the maximum [__FLT_MIN__ = 2^-126],
    the value the maximum starts from, instead of [-4].  The rotation by
    the angle [(0, 0, 0)] leaves the eight corners as they are. *)
Theorem SAT_of_negative_projections :
  forall rotate : Vector3.t float -> Vector3.t float -> Vector3.t float,
    (forall w, In w unit_corners -> rotate (vec 0 0 0) w = w) ->
    let p_vector : Vector3.t float := vec 1 0 0 in
    let p_obb : OBB.t float := OBB.mk (vec (-5) 0 0) (vec 1 1 1) (vec 0 0 0) in
    map (Vector3.Dot p_vector) (OBB.GetVertices rotate p_obb)
    = [lit (-6); lit (-4); lit (-6); lit (-4); lit (-4); lit (-6); lit (-4); lit (-6)] /\
    Range.SAT rotate p_vector p_obb = Range.mk (lit (-6)) FLT_MIN /\
    (zero <? FLT_MIN)%F = true.
Proof.
  intros rotate H p_vector p_obb.
  assert (E : OBB.GetVertices rotate p_obb
              = map (Vector3.add (vec (-5) 0 0)) unit_corners).
  { unfold OBB.GetVertices, unit_corners. subst p_obb. cbn [OBB.m_angle OBB.m_origin map].
    repeat match goal with
           | |- context [rotate (vec 0 0 0) ?w] => rewrite (H w) by (vm_compute; tauto)
           end.
    vm_compute. reflexivity. }
  unfold Range.SAT. rewrite E.
  repeat split; vm_compute; reflexivity.
Qed.

Lemma SAT_of_negative_projections_witness :
  (forall w : Vector3.t float,
      In w unit_corners -> (fun _ v : Vector3.t float => v) (vec 0 0 0 : Vector3.t float) w = w) /\
  Range.SAT (fun _ v => v) (vec 1 0 0 : Vector3.t float)
    (OBB.mk (vec (-5) 0 0) (vec 1 1 1) (vec 0 0 0))
  = Range.mk (lit (-6)) FLT_MIN.
Proof.
  split; [reflexivity | ].
  apply (SAT_of_negative_projections (fun _ v => v)). reflexivity.
Defined.

(** ** What a tester leaves in the Intersection when it returns false *)

(** C10.  The segment from [(5, 4, 0)] to [(4, 0, 0)] against the cylinder
    of axis [(0, 1, 0)], height 2 and radius 1 at the origin: the segment
    starts beyond the cap [P]; the test of the plane of the cap succeeds
    and writes the impact [(5, 4, 0)] and the normal [(0, 1, 0)]; the
    impact is outside the disc of the cap, the test of the lateral surface
    fails, and the call returns [false] with what the plane test wrote.
    The same holds of the ray with the same origin and vector, and of the
    segment against the capsule with the same axis, height and radius. *)
Theorem false_return_may_change_the_Intersection :
  let s : Segment.t float := Segment.mk (vec 5 4 0) (vec 4 0 0) in
  let r : Raycast.t float := Raycast.mk (vec 5 4 0) (vec (-1) (-4) 0) (lit 1) in
  let cylinder : Cylinder.t float := Cylinder.mk (vec 0 0 0) (vec 0 1 0) (lit 2) (lit 1) in
  let capsule : Capsule.t float := Capsule.mk (vec 0 0 0) (vec 0 1 0) (lit 2) (lit 1) in
  let written : Intersection.t float := Intersection.mk (vec 5 4 0) (vec 0 1 0) in
  Segment.IsIntersecting_Plane s (Plane.of_point (vec 0 1 0) (vec 0 1 0)) Intersection.default
  = (true, written) /\
  Segment.IsIntersecting_Cylinder s cylinder Intersection.default = (false, written) /\
  Raycast.IsIntersecting_Cylinder r cylinder Intersection.default = (false, written) /\
  Segment.IsIntersecting_Capsule s capsule Intersection.default = (false, written) /\
  written <> Intersection.default.
Proof.
  repeat split; try (vm_compute; reflexivity).
  vm_compute. discriminate.
Qed.

(** ** The slab test from inside the box *)

(** If the traversal ends with [tmin == 0], the segment test reports a
    miss and leaves the [Intersection] as it was. *)
Lemma Segment_entry_at_zero {F : Type} {SF : Scalar F}
  (b : AABB.t F) (s : Segment.t F) (hit : Intersection.t F) :
  enters_at_zero b (Segment.m_ptA s) (Segment.m_ptB s) ->
  Segment.IsIntersecting_AABB s b hit = (false, hit).
Proof.
  intros (tmin & tmax & Hslab & Hzero). unfold Segment.IsIntersecting_AABB.
  rewrite Hslab, Hzero. reflexivity.
Qed.

Lemma Raycast_entry_at_zero {F : Type} {SF : Scalar F}
  (b : AABB.t F) (r : Raycast.t F) (hit : Intersection.t F) :
  enters_at_zero b (Raycast.m_origin r) (Raycast_target r) ->
  Raycast.IsIntersecting_AABB r b hit = (false, hit).
Proof.
  intros (tmin & tmax & Hslab & Hzero). unfold Raycast.IsIntersecting_AABB.
  fold (Raycast_target r). rewrite Hslab, Hzero. reflexivity.
Qed.

Module ExactFacts.
Local Open Scope Q_scope.

Lemma Qle_bool_false (x y : Q) : Qle_bool x y = false -> y < x.
Proof.
  intros H. apply Qnot_le_lt. intros L. apply Qle_bool_iff in L. congruence.
Qed.

Lemma Qeq_bool_false (x y : Q) : Qeq_bool x y = false -> ~ x == y.
Proof. intros H E. apply Qeq_bool_iff in E. congruence. Qed.

(** Of two quotients by the same non-zero [d], one of a non-positive and
    one of a non-negative numerator, one is non-positive and the other is
    non-negative. *)
Lemma quotients_straddle_zero (a c d : Q) :
  a <= 0 -> 0 <= c -> ~ d == 0 ->
  (a / d <= 0 /\ 0 <= c / d) \/ (c / d <= 0 /\ 0 <= a / d).
Proof.
  intros Ha Hc Hd.
  destruct (Qlt_le_dec 0 d) as [Pos | Neg].
  - left. split.
    + apply Qle_shift_div_r; [assumption | lra].
    + apply Qle_shift_div_l; [assumption | lra].
  - right.
    assert (Hd' : 0 < - d) by (destruct (Qeq_dec d 0); [contradiction | lra]).
    assert (Ec : c / d == (- c) / (- d)) by (field; intros E; apply Hd; lra).
    assert (Ea : a / d == (- a) / (- d)) by (field; intros E; apply Hd; lra).
    rewrite Ec, Ea. split.
    + apply Qle_shift_div_r; [assumption | lra].
    + apply Qle_shift_div_l; [assumption | lra].
Qed.

Ltac by_cases :=
  repeat (cbv beta iota zeta; cbn [negb orb fst snd];
          match goal with
          | |- context [Qle_bool ?x ?y] =>
              let E := fresh "E" in
              destruct (Qle_bool x y) eqn:E;
              [apply Qle_bool_iff in E | apply Qle_bool_false in E]
          end).

Section Slab.
Variable sq : Q -> Q.
Let SFq : Scalar Q := Exact.scalar_with sq.
Local Existing Instance SFq.

(** On an axis where the first point of the probe is between the minimum
    and the maximum of the box, a turn of the loop that does not reject
    keeps [tmin == 0] and [0 <= tmax]. *)
Lemma slab_step_inside (b : AABB.t Q) (p_from p_to : Vector3.t Q) (st : Q * Q) (i : axis) :
  Vector3.get (AABB.m_min b) i <= Vector3.get p_from i ->
  Vector3.get p_from i <= Vector3.get (AABB.m_max b) i ->
  fst st == 0 /\ 0 <= snd st ->
  match AABB.slab_step b p_from p_to st i with
  | None => True
  | Some st' => fst st' == 0 /\ 0 <= snd st'
  end.
Proof.
  intros Hmin Hmax [Hz Hs]. unfold AABB.slab_step, AABB.GetMin, AABB.GetMax, Min, Max.
  cbn [fsub fdiv fltb feqb SFq Exact.scalar_with].
  change (@zero Q SFq) with 0.
  destruct (Qeq_bool _ 0) eqn:Ed; cbn [negb]; [split; assumption | ].
  apply Qeq_bool_false in Ed.
  destruct (quotients_straddle_zero
              (a := Vector3.get (AABB.m_min b) i - Vector3.get p_from i)
              (c := Vector3.get (AABB.m_max b) i - Vector3.get p_from i)
              (d := Vector3.get p_to i - Vector3.get p_from i)) as [[H1 H2] | [H1 H2]];
    try lra; try assumption;
    revert H1 H2;
    generalize ((Vector3.get (AABB.m_min b) i - Vector3.get p_from i)
                / (Vector3.get p_to i - Vector3.get p_from i));
    generalize ((Vector3.get (AABB.m_max b) i - Vector3.get p_from i)
                / (Vector3.get p_to i - Vector3.get p_from i));
    intros x2 x1 H1 H2; destruct st as [tmin tmax]; cbn [fst snd] in *;
    unfold Exact.Qltb; by_cases; cbn;
    try exact I; try (split; lra).
Qed.

Lemma Contains_bounds (b : AABB.t Q) (p : Vector3.t Q) :
  AABB.Contains b p = true ->
  forall i, Vector3.get (AABB.m_min b) i <= Vector3.get p i
            /\ Vector3.get p i <= Vector3.get (AABB.m_max b) i.
Proof.
  unfold AABB.Contains. cbn [fleb SFq Exact.scalar_with]. intros H i.
  repeat (apply andb_prop in H; destruct H as [H ?]).
  repeat match goal with E : Qle_bool _ _ = true |- _ => apply Qle_bool_iff in E end.
  destruct i; cbn [Vector3.get]; split; assumption.
Qed.

(** From a first point inside the box or on its surface, the traversal
    rejects the probe or ends with [tmin == 0]. *)
Lemma slab_from_inside (b : AABB.t Q) (p_from p_to : Vector3.t Q) :
  AABB.Contains b p_from = true ->
  match AABB.slab b p_from p_to with
  | None => True
  | Some st => (fst st ==? zero)%F = true
  end.
Proof.
  intros H. pose proof (Contains_bounds b p_from H) as B.
  assert (Hloop : forall axes st, fst st == 0 /\ 0 <= snd st ->
            match AABB.slab_loop b p_from p_to axes st with
            | None => True
            | Some st' => fst st' == 0 /\ 0 <= snd st'
            end).
  { induction axes as [ | i axes IH]; intros st Hst; [exact Hst | ].
    cbn [AABB.slab_loop].
    pose proof (slab_step_inside b p_from p_to st i (proj1 (B i)) (proj2 (B i)) Hst) as Hstep.
    destruct (AABB.slab_step b p_from p_to st i); [apply IH; exact Hstep | exact I]. }
  unfold AABB.slab.
  specialize (Hloop [X; Y; Z_] (zero, one)).
  destruct (AABB.slab_loop _ _ _ _ _); [ | exact I].
  apply Qeq_bool_iff. apply Hloop. split; [reflexivity | discriminate].
Qed.

Lemma Segment_from_inside (b : AABB.t Q) (s : Segment.t Q) (hit : Intersection.t Q) :
  AABB.Contains b (Segment.m_ptA s) = true ->
  Segment.IsIntersecting_AABB s b hit = (false, hit).
Proof.
  intros H. pose proof (slab_from_inside b (Segment.m_ptA s) (Segment.m_ptB s) H) as E.
  unfold Segment.IsIntersecting_AABB.
  destruct (AABB.slab _ _ _) as [[tmin tmax] | ]; [ | reflexivity].
  cbn [fst] in E. rewrite E. reflexivity.
Qed.

Lemma Raycast_from_inside (b : AABB.t Q) (r : Raycast.t Q) (hit : Intersection.t Q) :
  AABB.Contains b (Raycast.m_origin r) = true ->
  Raycast.IsIntersecting_AABB r b hit = (false, hit).
Proof.
  intros H. pose proof (slab_from_inside b (Raycast.m_origin r) (Raycast_target r) H) as E.
  unfold Raycast.IsIntersecting_AABB. fold (Raycast_target r).
  destruct (AABB.slab _ _ _) as [[tmin tmax] | ]; [ | reflexivity].
  cbn [fst] in E. rewrite E. reflexivity.
Qed.
End Slab.
End ExactFacts.

(** C9.  For every scalar type, box and probe, segment or ray: if the slab
    traversal ends with the entry parameter [tmin] equal to 0, the test
    returns [false] and leaves the [Intersection] as it was.  In exact
    arithmetic this is what happens, unless the traversal itself rejects
    the probe, whenever the first point of the probe is inside the box or
    on its surface: from there no probe is reported as a hit. *)
Theorem slab_entry_at_zero_is_a_miss :
  (forall (F : Type) (SF : Scalar F) (b : AABB.t F) (hit : Intersection.t F),
      (forall s : Segment.t F,
          enters_at_zero b (Segment.m_ptA s) (Segment.m_ptB s) ->
          Segment.IsIntersecting_AABB s b hit = (false, hit)) /\
      (forall r : Raycast.t F,
          enters_at_zero b (Raycast.m_origin r) (Raycast_target r) ->
          Raycast.IsIntersecting_AABB r b hit = (false, hit))) /\
  (forall (sq : Q -> Q) (b : AABB.t Q) (hit : Intersection.t Q),
      (forall s : Segment.t Q,
          AABB.Contains (SF := Exact.scalar_with sq) b (Segment.m_ptA s) = true ->
          Segment.IsIntersecting_AABB (SF := Exact.scalar_with sq) s b hit = (false, hit)) /\
      (forall r : Raycast.t Q,
          AABB.Contains (SF := Exact.scalar_with sq) b (Raycast.m_origin r) = true ->
          Raycast.IsIntersecting_AABB (SF := Exact.scalar_with sq) r b hit = (false, hit))).
Proof.
  split.
  - intros F SF b hit. split.
    + intros s. apply Segment_entry_at_zero.
    + intros r. apply Raycast_entry_at_zero.
  - intros sq b hit. split.
    + intros s. apply ExactFacts.Segment_from_inside.
    + intros r. apply ExactFacts.Raycast_from_inside.
Qed.

Lemma slab_entry_at_zero_is_a_miss_witness :
  let b : AABB.t float := box2 0 0 0 in
  let s : Segment.t float := Segment.mk (vec 0 0 0) (vec 5 0 0) in
  let r : Raycast.t float := Raycast.mk (vec 1 0 0) (vec 1 0 0) (lit 3) in
  let b' : AABB.t Q := box2 (SF := Exact.scalar) 0 0 0 in
  let s' : Segment.t Q := Segment.mk (vec (SF := Exact.scalar) 0 0 0) (vec (SF := Exact.scalar) 5 0 0) in
  let r' : Raycast.t Q :=
    Raycast.mk (vec (SF := Exact.scalar) 1 0 0) (vec (SF := Exact.scalar) 1 0 0)
      (lit (SF := Exact.scalar) 3) in
  (enters_at_zero b (Segment.m_ptA s) (Segment.m_ptB s) /\
   Segment.IsIntersecting_AABB s b Intersection.default = (false, Intersection.default)) /\
  (enters_at_zero b (Raycast.m_origin r) (Raycast_target r) /\
   Raycast.IsIntersecting_AABB r b Intersection.default = (false, Intersection.default)) /\
  (AABB.Contains (SF := Exact.scalar) b' (Segment.m_ptA s') = true /\
   Segment.IsIntersecting_AABB (SF := Exact.scalar) s' b'
     (Intersection.default (SF := Exact.scalar))
   = (false, Intersection.default (SF := Exact.scalar))) /\
  (AABB.Contains (SF := Exact.scalar) b' (Raycast.m_origin r') = true /\
   Raycast.IsIntersecting_AABB (SF := Exact.scalar) r' b'
     (Intersection.default (SF := Exact.scalar))
   = (false, Intersection.default (SF := Exact.scalar))).
Proof.
  intros b s r b' s' r'.
  assert (Hs : enters_at_zero b (Segment.m_ptA s) (Segment.m_ptB s))
    by (eexists; eexists; split; vm_compute; reflexivity).
  assert (Hr : enters_at_zero b (Raycast.m_origin r) (Raycast_target r))
    by (eexists; eexists; split; vm_compute; reflexivity).
  assert (Hs' : AABB.Contains (SF := Exact.scalar) b' (Segment.m_ptA s') = true)
    by (vm_compute; reflexivity).
  assert (Hr' : AABB.Contains (SF := Exact.scalar) b' (Raycast.m_origin r') = true)
    by (vm_compute; reflexivity).
  split; [split; [exact Hs | ] | split; [split; [exact Hr | ] | split; split]].
  - apply (proj1 slab_entry_at_zero_is_a_miss float _ b Intersection.default). exact Hs.
  - apply (proj1 slab_entry_at_zero_is_a_miss float _ b Intersection.default). exact Hr.
  - exact Hs'.
  - apply (proj2 slab_entry_at_zero_is_a_miss Exact.Qsqrt b'
             (Intersection.default (SF := Exact.scalar))). exact Hs'.
  - exact Hr'.
  - apply (proj2 slab_entry_at_zero_is_a_miss Exact.Qsqrt b'
             (Intersection.default (SF := Exact.scalar))). exact Hr'.
Defined.

(** * Further properties of the code *)

(** ** The order of the two scalar types *)

(** Swapping the operands of a comparison of [float]s swaps its result. *)
Lemma SFcompare_swap (x y : spec_float) :
  SFcompare y x = option_map CompOpp (SFcompare x y).
Proof.
  destruct x as [sx | sx | | sx mx ex], y as [sy | sy | | sy my ey]; cbn;
    try reflexivity;
    try (destruct sx; reflexivity); try (destruct sy; reflexivity);
    try (destruct sx, sy; reflexivity).
  destruct sx, sy; cbn; try reflexivity.
  - rewrite (Z.compare_antisym ex ey).
    destruct (ex ?= ey)%Z; cbn; try reflexivity.
    pose proof (Pos.compare_cont_antisym mx my Eq) as A. cbn in A.
    rewrite <- A, CompOpp_involutive. reflexivity.
  - rewrite (Z.compare_antisym ex ey).
    destruct (ex ?= ey)%Z; cbn; try reflexivity.
    pose proof (Pos.compare_cont_antisym mx my Eq) as A. cbn in A.
    rewrite <- A. reflexivity.
Qed.

#[global] Instance Binary32_ordered : OrderedScalar Binary32.float.
Proof.
  constructor. intros x y. cbn [fleb fltb Binary32.scalar]. unfold SFleb, SFltb.
  rewrite (SFcompare_swap x y).
  destruct (SFcompare x y) as [[ | | ] | ]; cbn; intros H; (reflexivity || discriminate H).
Qed.

Lemma Exact_ordered (sq : Q -> Q) : OrderedScalar (SF := Exact.scalar_with sq) Q.
Proof.
  constructor. intros x y. cbn [fleb fltb Exact.scalar_with]. unfold Exact.Qltb.
  intros ->. reflexivity.
Qed.

(** ** Properties that hold on every scalar type *)

(** X1.  [Range::IsOverlapping] is symmetric, on every scalar type, NaN
    bounds included. *)
Theorem IsOverlapping_symmetric :
  forall (F : Type) (SF : Scalar F) (r p_other : Range.t F),
    Range.IsOverlapping r p_other = Range.IsOverlapping p_other r.
Proof.
  intros F SF r p_other. unfold Range.IsOverlapping.
  rewrite (orb_comm (Range.m_max r <? Range.m_min p_other)%F). reflexivity.
Qed.

(** X2.  The testers of a plane, a box, a sphere and an infinite cylinder
    write the [Intersection] only when they report a hit: a segment or a ray
    test of these shapes either returns [true], or returns the
    [Intersection] the caller passed. *)
Theorem simple_testers_keep_the_Intersection_on_a_miss :
  forall (F : Type) (SF : Scalar F) (s : Segment.t F) (r : Raycast.t F)
         (hit : Intersection.t F),
    (forall p, fst (Segment.IsIntersecting_Plane s p hit) = true \/
               snd (Segment.IsIntersecting_Plane s p hit) = hit) /\
    (forall b, fst (Segment.IsIntersecting_AABB s b hit) = true \/
               snd (Segment.IsIntersecting_AABB s b hit) = hit) /\
    (forall c, fst (Segment.IsIntersecting_Sphere s c hit) = true \/
               snd (Segment.IsIntersecting_Sphere s c hit) = hit) /\
    (forall c, fst (Segment.IsIntersecting_InfiniteCylinder s c hit) = true \/
               snd (Segment.IsIntersecting_InfiniteCylinder s c hit) = hit) /\
    (forall p, fst (Raycast.IsIntersecting_Plane r p hit) = true \/
               snd (Raycast.IsIntersecting_Plane r p hit) = hit) /\
    (forall b, fst (Raycast.IsIntersecting_AABB r b hit) = true \/
               snd (Raycast.IsIntersecting_AABB r b hit) = hit) /\
    (forall c, fst (Raycast.IsIntersecting_Sphere r c hit) = true \/
               snd (Raycast.IsIntersecting_Sphere r c hit) = hit) /\
    (forall c, fst (Raycast.IsIntersecting_InfiniteCylinder r c hit) = true \/
               snd (Raycast.IsIntersecting_InfiniteCylinder r c hit) = hit).
Proof.
  intros F SF s r hit.
  repeat match goal with |- _ /\ _ => split end; intros x;
    unfold Segment.IsIntersecting_Plane, Segment.IsIntersecting_AABB,
      Segment.IsIntersecting_Sphere, Segment.IsIntersecting_InfiniteCylinder,
      Raycast.IsIntersecting_Plane, Raycast.IsIntersecting_AABB,
      Raycast.IsIntersecting_Sphere, Raycast.IsIntersecting_InfiniteCylinder;
    repeat match goal with
           | |- context [match ?c with Some _ => _ | None => _ end] => destruct c as [[? ?] | ]
           | |- context [if ?c then _ else _] => destruct c
           end;
    cbn [fst snd]; (left; reflexivity) || (right; reflexivity).
Qed.

(** X3.  On a point that the box contains, [ClosestPoint] returns the
    point itself and [DistanceSqr] returns [0.0f]; this holds of [float]
    as of exact arithmetic. *)
Theorem contained_point_is_its_own_closest_point :
  forall (F : Type) (SF : Scalar F) (OS : OrderedScalar F) (b : AABB.t F) (p : Vector3.t F),
    AABB.Contains b p = true ->
    AABB.ClosestPoint b p = p /\ AABB.DistanceSqr b p = zero.
Proof.
  intros F SF OS b p H. unfold AABB.Contains in H.
  repeat (apply andb_prop in H; destruct H as [H ?]).
  repeat match goal with
         | E : (_ <=? _)%F = true |- _ => apply fleb_not_fltb in E
         end.
  unfold AABB.ClosestPoint, AABB.DistanceSqr, AABB.DistanceSqr_step.
  cbn [fold_left Vector3.get].
  repeat match goal with E : (_ <? _)%F = false |- _ => rewrite E; clear E end.
  destruct p; split; reflexivity.
Qed.

Lemma contained_point_is_its_own_closest_point_witness :
  AABB.Contains (box2 0 0 0 : AABB.t float) (Vector3.mk (halves 1) zero (lit (-1))) = true /\
  AABB.ClosestPoint (box2 0 0 0 : AABB.t float) (Vector3.mk (halves 1) zero (lit (-1)))
  = Vector3.mk (halves 1) zero (lit (-1)).
Proof.
  assert (H : AABB.Contains (box2 0 0 0 : AABB.t float)
                (Vector3.mk (halves 1) zero (lit (-1))) = true) by (vm_compute; reflexivity).
  split; [exact H | ].
  exact (proj1 (@contained_point_is_its_own_closest_point float _ _ _ _ H)).
Defined.

(** X4.  [Clamp] and [Clamp01] return their argument when it is within
    the bounds; this holds of [float] as of exact arithmetic. *)
Theorem Clamp_inside_the_bounds :
  forall (F : Type) (SF : Scalar F) (OS : OrderedScalar F) (p_num p_min p_max : F),
    (p_min <=? p_num)%F = true -> (p_num <=? p_max)%F = true ->
    Clamp p_num p_min p_max = p_num /\
    (p_min = zero -> p_max = one -> Clamp01 p_num = p_num).
Proof.
  intros F SF OS p_num p_min p_max Hmin Hmax.
  apply fleb_not_fltb in Hmin. apply fleb_not_fltb in Hmax.
  split.
  - unfold Clamp. rewrite Hmin, Hmax. reflexivity.
  - intros -> ->. unfold Clamp01. rewrite Hmin, Hmax. reflexivity.
Qed.

Lemma Clamp_inside_the_bounds_witness :
  ((zero : float) <=? halves 1)%F = true /\ ((halves 1 : float) <=? one)%F = true /\
  Clamp (halves 1 : float) zero one = halves 1 /\ Clamp01 (halves 1 : float) = halves 1.
Proof.
  assert (H0 : ((zero : float) <=? halves 1)%F = true) by (vm_compute; reflexivity).
  assert (H1 : ((halves 1 : float) <=? one)%F = true) by (vm_compute; reflexivity).
  split; [exact H0 | split; [exact H1 | ]].
  destruct (@Clamp_inside_the_bounds float _ _ _ _ _ H0 H1) as [Hc Hc01].
  split; [exact Hc | exact (Hc01 eq_refl eq_refl)].
Defined.

(** ** Properties of [float] *)


(** X5.  A NaN operand of [Min], [Max] or [Clamp01] never compares: [Min]
    and [Max] return their second argument, whichever operand is the NaN,
    and [Clamp01] returns the NaN.  A box contains no point with a NaN
    member. *)
Theorem NaN_in_Min_Max_Clamp01_Contains :
  forall (x y z : float) (b : AABB.t float),
    Min S754_nan x = x /\ Max S754_nan x = x /\
    Min x S754_nan = S754_nan /\ Max x S754_nan = S754_nan /\
    Clamp01 (S754_nan : float) = S754_nan /\
    AABB.Contains b (Vector3.mk S754_nan y z) = false /\
    AABB.Contains b (Vector3.mk x S754_nan z) = false /\
    AABB.Contains b (Vector3.mk x y S754_nan) = false.
Proof.
  intros x y z b.
  assert (Hl : forall w : float, (w <? S754_nan)%F = false) by (intros w; destruct w; reflexivity).
  assert (Hl' : forall w : float, (S754_nan <? w)%F = false) by (intros w; destruct w; reflexivity).
  assert (Hr : forall w : float, (w <=? S754_nan)%F = false) by (intros w; destruct w; reflexivity).
  unfold Min, Max, Clamp01, AABB.Contains. cbn [Vector3.m_x Vector3.m_y Vector3.m_z].
  rewrite !Hl, !Hl', !Hr.
  repeat split; cbn [andb]; rewrite ?andb_false_r; reflexivity.
Qed.

(** ** Properties in exact arithmetic *)

Module ExactTactics.
Local Open Scope Q_scope.

Lemma Qltb_true (x y : Q) : Exact.Qltb x y = true -> x < y.
Proof.
  unfold Exact.Qltb. intros H. apply negb_true_iff in H.
  apply ExactFacts.Qle_bool_false. exact H.
Qed.

Lemma Qltb_false (x y : Q) : Exact.Qltb x y = false -> y <= x.
Proof.
  unfold Exact.Qltb. intros H. apply negb_false_iff in H.
  apply Qle_bool_iff. exact H.
Qed.

(** The operations of [Exact.scalar_with] are those of [Q]. *)
Ltac exact_ops :=
  repeat match goal with S := Exact.scalar_with _ |- _ => subst S end;
  unfold zero, one, two, four, lit in *;
  cbn [fadd fsub fmul fdiv fneg fabs fsqrt feqb fltb fleb dyadic Exact.scalar_with] in *;
  change (Exact.of_dyadic 0 0) with 0 in *;
  change (Exact.of_dyadic 1 0) with 1 in *;
  change (Exact.of_dyadic 2 0) with (2 # 1) in *;
  change (Exact.of_dyadic 4 0) with (4 # 1) in *.

(** A division by the literal [2.0f] is a product by one half. *)
Ltac halve := unfold Qdiv in *; change (/ (2 # 1)) with (1 # 2) in *.

(** The conjuncts of the goal, one by one. *)
Ltac conjs := repeat match goal with |- _ /\ _ => split end.

(** The comparisons of the goal, by cases, as propositions. *)
Ltac goal_cases :=
  repeat (cbv beta iota zeta; cbn [negb orb andb fst snd];
          match goal with
          | |- context [Exact.Qltb ?x ?y] =>
              let E := fresh "E" in
              destruct (Exact.Qltb x y) eqn:E;
              [apply Qltb_true in E | apply Qltb_false in E]
          | |- context [Qle_bool ?x ?y] =>
              let E := fresh "E" in
              destruct (Qle_bool x y) eqn:E;
              [apply Qle_bool_iff in E | apply ExactFacts.Qle_bool_false in E]
          | |- context [Qeq_bool ?x ?y] =>
              let E := fresh "E" in
              destruct (Qeq_bool x y) eqn:E;
              [apply Qeq_bool_iff in E | apply ExactFacts.Qeq_bool_false in E]
          end).

(** The comparisons of the hypotheses, as propositions. *)
Ltac hyp_props :=
  repeat match goal with
         | H : _ && _ = true |- _ => apply andb_prop in H; destruct H
         | H : Exact.Qltb _ _ = true |- _ => apply Qltb_true in H
         | H : Exact.Qltb _ _ = false |- _ => apply Qltb_false in H
         | H : Qle_bool _ _ = true |- _ => apply Qle_bool_iff in H
         | H : Qle_bool _ _ = false |- _ => apply ExactFacts.Qle_bool_false in H
         | H : Qeq_bool _ _ = true |- _ => apply Qeq_bool_iff in H
         | H : Qeq_bool _ _ = false |- _ => apply ExactFacts.Qeq_bool_false in H
         end.
End ExactTactics.

Module ExactUtilities.
Import ExactTactics.
Local Open Scope Q_scope.

(** X6.  In exact arithmetic [Min] and [Max] return one of their
    arguments, the smaller and the larger one, and [Clamp01] returns a
    value between 0 and 1. *)
Theorem Min_Max_Clamp01_bounds :
  forall (sq : Q -> Q) (a b : Q),
    let SFq := Exact.scalar_with sq in
    (Min a b <= a /\ Min a b <= b /\ (Min a b = a \/ Min a b = b)) /\
    (a <= Max a b /\ b <= Max a b /\ (Max a b = a \/ Max a b = b)) /\
    (0 <= Clamp01 a /\ Clamp01 a <= 1).
Proof.
  intros sq a b SFq. unfold Min, Max, Clamp01. exact_ops.
  goal_cases; repeat split; try lra; auto.
Qed.

(** X7.  In exact arithmetic [Clamp] returns a value between its bounds
    when they are ordered, [p_min <= p_max]. *)
Theorem Clamp_bounds :
  forall (sq : Q -> Q) (p_num p_min p_max : Q),
    p_min <= p_max ->
    p_min <= Clamp (SF := Exact.scalar_with sq) p_num p_min p_max <= p_max.
Proof.
  intros sq p_num p_min p_max H. unfold Clamp. exact_ops.
  goal_cases; lra.
Qed.

Lemma Clamp_bounds_witness :
  (1 <= 5 /\
   1 <= Clamp (SF := Exact.scalar) 7 1 5 <= 5) /\
  Clamp (SF := Exact.scalar) 3 5 1 = 5.
Proof.
  assert (H : 1 <= 5) by lra.
  split; [split; [exact H | exact (Clamp_bounds Exact.Qsqrt 7 H)] | reflexivity].
Defined.




End ExactUtilities.

Module ExactAABB.
Import ExactTactics.
Local Open Scope Q_scope.

Section Boxes.
Variable sq : Q -> Q.
Let SFq : Scalar Q := Exact.scalar_with sq.
Local Existing Instance SFq.

(** [Contains], as inequalities on the three axes. *)
Lemma Contains_iff (b : AABB.t Q) (p : Vector3.t Q) :
  AABB.Contains b p = true <->
  (Vector3.m_x (AABB.m_min b) <= Vector3.m_x p <= Vector3.m_x (AABB.m_max b)) /\
  (Vector3.m_y (AABB.m_min b) <= Vector3.m_y p <= Vector3.m_y (AABB.m_max b)) /\
  (Vector3.m_z (AABB.m_min b) <= Vector3.m_z p <= Vector3.m_z (AABB.m_max b)).
Proof.
  unfold AABB.Contains. exact_ops. rewrite !andb_true_iff, !Qle_bool_iff. tauto.
Qed.


End Boxes.

(** X11.  In exact arithmetic, when the minimum of a box is not above its
    maximum on any axis, [ClosestPoint] returns a point that the box
    contains, and that is its own closest point. *)
Theorem ClosestPoint_is_in_the_box :
  forall (sq : Q -> Q) (b : AABB.t Q) (p : Vector3.t Q),
    (forall i, Vector3.get (AABB.m_min b) i <= Vector3.get (AABB.m_max b) i) ->
    AABB.Contains (SF := Exact.scalar_with sq) b (AABB.ClosestPoint (SF := Exact.scalar_with sq) b p)
    = true /\
    AABB.ClosestPoint (SF := Exact.scalar_with sq) b
      (AABB.ClosestPoint (SF := Exact.scalar_with sq) b p)
    = AABB.ClosestPoint (SF := Exact.scalar_with sq) b p.
Proof.
  intros sq b p H.
  assert (Hin : AABB.Contains (SF := Exact.scalar_with sq) b
                  (AABB.ClosestPoint (SF := Exact.scalar_with sq) b p) = true).
  { apply Contains_iff. pose proof (H X) as Hx. pose proof (H Y) as Hy. pose proof (H Z_) as Hz.
    cbn [Vector3.get] in Hx, Hy, Hz.
    unfold AABB.ClosestPoint. cbn [Vector3.get Vector3.m_x Vector3.m_y Vector3.m_z]. exact_ops.
    goal_cases; repeat split; lra. }
  split; [exact Hin | ].
  exact (proj1 (@contained_point_is_its_own_closest_point Q _ (Exact_ordered sq) b _ Hin)).
Qed.

Lemma ClosestPoint_is_in_the_box_witness :
  (forall i, Vector3.get (AABB.m_min (box2 (SF := Exact.scalar) 0 0 0)) i
             <= Vector3.get (AABB.m_max (box2 (SF := Exact.scalar) 0 0 0)) i) /\
  AABB.Contains (SF := Exact.scalar) (box2 (SF := Exact.scalar) 0 0 0)
    (AABB.ClosestPoint (SF := Exact.scalar) (box2 (SF := Exact.scalar) 0 0 0)
       (Vector3.mk 0 0 (3 # 2))) = true.
Proof.
  assert (H : forall i, Vector3.get (AABB.m_min (box2 (SF := Exact.scalar) 0 0 0)) i
                        <= Vector3.get (AABB.m_max (box2 (SF := Exact.scalar) 0 0 0)) i)
    by (intros i; destruct i; vm_compute; discriminate).
  split; [exact H | ].
  exact (proj1 (ClosestPoint_is_in_the_box Exact.Qsqrt _ (Vector3.mk 0 0 (3 # 2)) H)).
Defined.


(** X13.  In exact arithmetic the box built from an origin and a size of
    non-negative members contains its origin and its eight vertices. *)
Theorem box_contains_its_origin_and_vertices :
  forall (sq : Q -> Q) (p_origin p_size : Vector3.t Q),
    (forall i, 0 <= Vector3.get p_size i) ->
    let b := AABB.make (SF := Exact.scalar_with sq) p_origin p_size in
    AABB.Contains (SF := Exact.scalar_with sq) b p_origin = true /\
    Forall (fun v => AABB.Contains (SF := Exact.scalar_with sq) b v = true)
           (AABB.GetVertices (SF := Exact.scalar_with sq) b).
Proof.
  intros sq p_origin p_size H b. subst b.
  pose proof (H X) as Hx. pose proof (H Y) as Hy. pose proof (H Z_) as Hz.
  cbn [Vector3.get] in Hx, Hy, Hz.
  unfold AABB.GetVertices.
  repeat first [apply Forall_cons | apply Forall_nil | split];
    apply Contains_iff; unfold AABB.make;
    cbn [AABB.m_min AABB.m_max AABB.m_extents AABB.m_origin Vector3.add Vector3.sub Vector3.div
         Vector3.m_x Vector3.m_y Vector3.m_z];
    exact_ops; halve; repeat split; lra.
Qed.

Lemma box_contains_its_origin_and_vertices_witness :
  (forall i, 0 <= Vector3.get (Vector3.mk (2 # 1) (2 # 1) (2 # 1)) i) /\
  AABB.Contains (SF := Exact.scalar)
    (AABB.make (SF := Exact.scalar) (Vector3.mk (3 # 1) 0 0) (Vector3.mk (2 # 1) (2 # 1) (2 # 1)))
    (Vector3.mk (3 # 1) 0 0) = true.
Proof.
  assert (H : forall i, 0 <= Vector3.get (Vector3.mk (2 # 1) (2 # 1) (2 # 1)) i)
    by (intros i; destruct i; discriminate).
  split; [exact H | ].
  exact (proj1 (box_contains_its_origin_and_vertices Exact.Qsqrt (Vector3.mk (3 # 1) 0 0) _ H)).
Defined.

(** X14.  In exact arithmetic [Expand] by a non-negative amount keeps in
    the box every point that the box built from an origin and a size
    contains, and [Expand] by 0 leaves the minimum and the maximum where
    they are. *)
Theorem Expand_keeps_the_points :
  forall (sq : Q -> Q) (p_origin p_size p : Vector3.t Q) (p_amount : Q),
    0 <= p_amount ->
    let b := AABB.make (SF := Exact.scalar_with sq) p_origin p_size in
    (AABB.Contains (SF := Exact.scalar_with sq) b p = true ->
     AABB.Contains (SF := Exact.scalar_with sq)
       (AABB.Expand (SF := Exact.scalar_with sq) b p_amount) p = true) /\
    veq (AABB.GetMin (AABB.Expand (SF := Exact.scalar_with sq) b 0)) (AABB.GetMin b) /\
    veq (AABB.GetMax (AABB.Expand (SF := Exact.scalar_with sq) b 0)) (AABB.GetMax b).
Proof.
  intros sq p_origin p_size p p_amount H b. subst b.
  rewrite !Contains_iff. unfold veq, AABB.GetMin, AABB.GetMax, AABB.Expand, AABB.make.
  cbn [AABB.m_min AABB.m_max AABB.m_extents AABB.m_origin AABB.m_size
       Vector3.add Vector3.add_k Vector3.sub Vector3.div Vector3.m_x Vector3.m_y Vector3.m_z].
  exact_ops. halve. repeat split; try lra.
Qed.

Lemma Expand_keeps_the_points_witness :
  0 <= 1 # 2 /\
  AABB.Contains (SF := Exact.scalar)
    (AABB.Expand (SF := Exact.scalar) (box2 (SF := Exact.scalar) 3 0 0) (1 # 2))
    (Vector3.mk (2 # 1) 0 0) = true.
Proof.
  assert (H : 0 <= 1 # 2) by discriminate.
  split; [exact H | ].
  apply (proj1 (Expand_keeps_the_points Exact.Qsqrt
                  (vec (SF := Exact.scalar) 3 0 0) (vec (SF := Exact.scalar) 2 2 2)
                  (Vector3.mk (2 # 1) 0 0) H)).
  vm_compute. reflexivity.
Defined.

(** X15.  In exact arithmetic, for boxes whose extents on x are not
    negative, [a.IsColliding(b)] and [b.IsColliding(a)] are never both
    [false]: when one order reports no collision, the other order reports
    a collision.  A box always collides with itself. *)
Theorem IsColliding_false_in_one_order_only :
  forall (sq : Q -> Q) (a b : AABB.t Q),
    0 <= Vector3.m_x (AABB.m_extents a) -> 0 <= Vector3.m_x (AABB.m_extents b) ->
    (AABB.IsColliding (SF := Exact.scalar_with sq) a b = false ->
     AABB.IsColliding (SF := Exact.scalar_with sq) b a = true) /\
    AABB.IsColliding (SF := Exact.scalar_with sq) a a = true.
Proof.
  intros sq a b Ha Hb. unfold AABB.IsColliding, AABB.GetExtents. exact_ops.
  split.
  - goal_cases; intros H; try reflexivity; try discriminate H; lra.
  - goal_cases; try reflexivity; lra.
Qed.

Lemma IsColliding_false_in_one_order_only_witness :
  (0 <= Vector3.m_x (AABB.m_extents (box2 (SF := Exact.scalar) 3 3 3)) /\
   0 <= Vector3.m_x (AABB.m_extents (box2 (SF := Exact.scalar) 0 0 0))) /\
  AABB.IsColliding (SF := Exact.scalar)
    (box2 (SF := Exact.scalar) 3 3 3) (box2 (SF := Exact.scalar) 0 0 0) = false /\
  AABB.IsColliding (SF := Exact.scalar)
    (box2 (SF := Exact.scalar) 0 0 0) (box2 (SF := Exact.scalar) 3 3 3) = true.
Proof.
  assert (Ha : 0 <= Vector3.m_x (AABB.m_extents (box2 (SF := Exact.scalar) 3 3 3)))
    by (vm_compute; discriminate).
  assert (Hb : 0 <= Vector3.m_x (AABB.m_extents (box2 (SF := Exact.scalar) 0 0 0)))
    by (vm_compute; discriminate).
  assert (Hf : AABB.IsColliding (SF := Exact.scalar)
                 (box2 (SF := Exact.scalar) 3 3 3) (box2 (SF := Exact.scalar) 0 0 0) = false)
    by (vm_compute; reflexivity).
  split; [split; [exact Ha | exact Hb] | split; [exact Hf | ]].
  exact (proj1 (IsColliding_false_in_one_order_only Exact.Qsqrt _ _ Ha Hb) Hf).
Defined.


End ExactAABB.

Module ExactRange.
Import ExactTactics.
Local Open Scope Q_scope.

Section Folding.
Variable sq : Q -> Q.
Let SFq : Scalar Q := Exact.scalar_with sq.
Local Existing Instance SFq.

(** Folding [SAT_step] over vertices widens the range, and the widened
    range holds the projection of every vertex folded. *)
Lemma SAT_fold_covers (p_vector : Vector3.t Q) (vertices : list (Vector3.t Q)) :
  forall range : Range.t Q,
    let result := fold_left (Range.SAT_step p_vector) vertices range in
    (Range.m_min result <= Range.m_min range /\ Range.m_max range <= Range.m_max result) /\
    (forall v, In v vertices ->
               Range.m_min result <= Vector3.Dot p_vector v <= Range.m_max result).
Proof.
  induction vertices as [ | w vertices IH]; intros range; cbn [fold_left].
  - split; [split; apply Qle_refl | intros v []].
  - destruct (IH (Range.SAT_step p_vector range w)) as [[Hmin Hmax] Hin].
    assert (Hstep : Range.m_min (Range.SAT_step p_vector range w) <= Range.m_min range /\
                    Range.m_max range <= Range.m_max (Range.SAT_step p_vector range w) /\
                    Range.m_min (Range.SAT_step p_vector range w) <= Vector3.Dot p_vector w /\
                    Vector3.Dot p_vector w <= Range.m_max (Range.SAT_step p_vector range w)).
    { unfold Range.SAT_step, Min, Max. cbn [Range.m_min Range.m_max].
      generalize (Vector3.Dot p_vector w) as dot. intros dot. exact_ops.
      goal_cases; repeat split; lra. }
    destruct Hstep as (S1 & S2 & S3 & S4).
    split; [split; lra | ].
    intros v [<- | Hv]; [split; lra | apply Hin; exact Hv].
Qed.
End Folding.

(** X17.  In exact arithmetic the range that [SAT] returns holds the
    projection of every vertex of the box on the axis, and its minimum is
    not above its maximum. *)
Theorem SAT_covers_the_projections :
  forall (sq : Q -> Q) (rotate : Vector3.t Q -> Vector3.t Q -> Vector3.t Q)
         (p_vector : Vector3.t Q) (p_obb : OBB.t Q),
    let range := Range.SAT (SF := Exact.scalar_with sq) rotate p_vector p_obb in
    Forall (fun v => Range.m_min range <= Vector3.Dot (SF := Exact.scalar_with sq) p_vector v
                     <= Range.m_max range)
           (OBB.GetVertices (SF := Exact.scalar_with sq) rotate p_obb) /\
    Range.m_min range <= Range.m_max range.
Proof.
  intros sq rotate p_vector p_obb range.
  pose proof (SAT_fold_covers sq p_vector (OBB.GetVertices (SF := Exact.scalar_with sq) rotate p_obb)
                (Range.mk (FLT_MAX (SF := Exact.scalar_with sq)) (FLT_MIN (SF := Exact.scalar_with sq))))
    as [_ Hin].
  fold (Range.SAT (SF := Exact.scalar_with sq) rotate p_vector p_obb) in Hin. fold range in Hin.
  split.
  - apply Forall_forall. exact Hin.
  - specialize (Hin _ (or_introl eq_refl : In _ (OBB.GetVertices (SF := Exact.scalar_with sq) rotate p_obb))).
    lra.
Qed.
End ExactRange.

Module ExactAlgebra.
Import ExactTactics.
Local Open Scope Q_scope.

(** The members of the vectors and records, exposed. *)
Ltac members :=
  unfold Vector3.Dot, Vector3.Cross, Vector3.GetSqrMagnitude, Vector3.DistanceSqr,
    Vector3.add, Vector3.sub, Vector3.neg, Vector3.scale, Vector3.div, Vector3.between in *;
  cbv zeta in *;
  cbn [Vector3.m_x Vector3.m_y Vector3.m_z
       Plane.m_normal Plane.m_distance Line.m_origin Line.m_direction
       Segment.m_ptA Segment.m_ptB Intersection.m_impact Intersection.m_normal] in *.


(** X19.  [SameSide] does not depend on the order of its two points, on
    every scalar type; in exact arithmetic a point is on the same side as
    itself. *)
Theorem SameSide_symmetric_reflexive :
  (forall (F : Type) (SF : Scalar F) (p : Plane.t F) (p_pt1 p_pt2 : Vector3.t F),
      Plane.SameSide p p_pt1 p_pt2 = Plane.SameSide p p_pt2 p_pt1) /\
  (forall (sq : Q -> Q) (p : Plane.t Q) (p_pt : Vector3.t Q),
      Plane.SameSide (SF := Exact.scalar_with sq) p p_pt p_pt = true).
Proof.
  split.
  - intros F SF p p_pt1 p_pt2. unfold Plane.SameSide. cbv zeta.
    rewrite (andb_comm (Plane.GetSide p p_pt1 >? zero)%F),
            (andb_comm (Plane.GetSide p p_pt1 <? zero)%F),
            (andb_comm (Plane.GetSide p p_pt1 ==? zero)%F).
    reflexivity.
  - intros sq p p_pt. unfold Plane.SameSide. cbv zeta.
    generalize (Plane.GetSide (SF := Exact.scalar_with sq) p p_pt) as side. intros side.
    exact_ops. goal_cases; try reflexivity. lra.
Qed.









(** X24.  In exact arithmetic [operator==] of vectors is reflexive and
    symmetric, and holds of two vectors whose members are equal; it is not
    an equivalence: it holds of [(0,0,0)] and [(2^-52,0,0)], of
    [(2^-52,0,0)] and [(2^-51,0,0)], and not of [(0,0,0)] and
    [(2^-51,0,0)]. *)
Theorem Vector3_eqb_is_a_tolerance :
  forall (sq : Q -> Q) (a b : Vector3.t Q),
    let SFq := Exact.scalar_with sq in
    Vector3.eqb a a = true /\
    Vector3.eqb a b = Vector3.eqb b a /\
    (veq a b -> Vector3.eqb a b = true) /\
    Vector3.eqb (Vector3.mk 0 0 0) (Vector3.mk (dyadic 1 (-52)) 0 0) = true /\
    Vector3.eqb (Vector3.mk (dyadic 1 (-52)) 0 0) (Vector3.mk (dyadic 1 (-51)) 0 0) = true /\
    Vector3.eqb (Vector3.mk 0 0 0) (Vector3.mk (dyadic 1 (-51)) 0 0) = false.
Proof.
  intros sq a b SFq. subst SFq.
  split; [ | split; [ | split; [ | conjs; vm_compute; reflexivity]]];
    unfold veq, Vector3.eqb, DBL_EPSILON_SQR; members; exact_ops;
    change (Exact.of_dyadic 1 (-104)) with (1 # 20282409603651670423947251286016).
  - goal_cases; try reflexivity; nra.
  - goal_cases; try reflexivity; nra.
  - intros (Hx & Hy & Hz). goal_cases; try reflexivity; nra.
Qed.

Lemma Vector3_eqb_is_a_tolerance_witness :
  veq (Vector3.mk (2 # 4) 0 0) (Vector3.mk (1 # 2) 0 0) /\
  Vector3.eqb (SF := Exact.scalar) (Vector3.mk (2 # 4) 0 0) (Vector3.mk (1 # 2) 0 0) = true.
Proof.
  assert (H : veq (Vector3.mk (2 # 4) 0 0) (Vector3.mk (1 # 2) 0 0))
    by (unfold veq; cbn; split; [reflexivity | split; reflexivity]).
  split; [exact H | ].
  exact (proj1 (proj2 (proj2 (Vector3_eqb_is_a_tolerance Exact.Qsqrt
                                (Vector3.mk (2 # 4) 0 0) (Vector3.mk (1 # 2) 0 0)))) H).
Defined.


End ExactAlgebra.

Module ExactTesters.
Import ExactTactics.
Import ExactAlgebra.
Local Open Scope Q_scope.






Section Slabs.
Variable sq : Q -> Q.
Let SFq : Scalar Q := Exact.scalar_with sq.
Local Existing Instance SFq.


End Slabs.







End ExactTesters.
